(** * Verification of the QR-remote-sensing scene-selection scripts

    Shallow embedding of [scripts/select_scenes_flood_aware.py],
    [scripts/select_scenes_to_shp.py] and [scripts/mosaic_by_geojson.py].
    In the two selection scripts Python floats are IEEE 754 binary64
    values (Rocq's primitive [float]), Python ints are [Z], and numbers
    compare as Python compares them: exactly, with NaN unordered. In the
    mosaic script the scene figures are rationals ([Q]). The geometry
    intersection test (shapely) and the density clustering (sklearn DBSCAN)
    are library routines and appear as function parameters of the
    definitions that call them. *)

From Stdlib Require Import QArith ZArith List Bool Ascii String Sorting.Permutation Sorting.Sorted Floats.
From stdpp Require Import base strings pretty.
Import ListNotations.
Open Scope string_scope.
Set Warnings "-register-all -inexact-float".

(** ** Python values and exceptions *)

(** A parsed JSON value, as [json.load] returns it: integer literals are
    Python ints, the other numbers (also [NaN] and [Infinity], which
    [json.load] accepts) are floats. *)
Inductive json : Type :=
| JNull
| JBool (b : bool)
| JInt (z : Z)
| JFloat (x : float)
| JStr (s : string)
| JArr (l : list json)
| JObj (kv : list (string * json)).

(** The exceptions the scripts can raise. *)
Inductive exn : Type :=
| TypeError
| ValueError
| KeyError
| AttributeError
| OSError
| OverflowError
| JSONDecodeError.

(** [dict.get(k, default)] on a parsed JSON object: [json.load] keeps the
    last of duplicate keys, so the last binding wins. *)
Fixpoint assoc_get (kv : list (string * json)) (k : string) : option json :=
  match kv with
  | [] => None
  | (k', v) :: r =>
      match assoc_get r k with
      | Some w => Some w
      | None => if String.eqb k k' then Some v else None
      end
  end.

(** [x.get(k, d)]: only a dict has [.get]; anything else raises
    [AttributeError]. *)
Definition py_get (x : json) (k : string) (d : json) : sum exn json :=
  match x with
  | JObj kv => inr (match assoc_get kv k with Some v => v | None => d end)
  | _ => inl AttributeError
  end.

(** ** Python numbers and their comparisons *)

(** A Python number: an int or a float. *)
Inductive pynum : Type :=
| PyInt (z : Z)
| PyFloat (x : float).

(** The real numbers extended with the two infinities. *)
Inductive xreal : Type :=
| XNegInf
| XFin (q : Q)
| XPosInf.

(** The rational [(-1)^s * m * 2^e] of a finite binary64 value. *)
Definition sf_Q (s : bool) (m : positive) (e : Z) : Q :=
  let n := if s then Zneg m else Zpos m in
  if (0 <=? e)%Z then inject_Z (n * 2 ^ e) else Qmake n (Pos.pow 2 (Z.to_pos (- e))).

(** The value a double stands for; [None] for NaN. Both zeros are 0. *)
Definition float_value (x : float) : option xreal :=
  match Prim2SF x with
  | S754_nan => None
  | S754_infinity s => Some (if s then XNegInf else XPosInf)
  | S754_zero _ => Some (XFin 0)
  | S754_finite s m e => Some (XFin (sf_Q s m e))
  end.

Definition pynum_value (n : pynum) : option xreal :=
  match n with
  | PyInt z => Some (XFin (inject_Z z))
  | PyFloat x => float_value x
  end.

Definition xcompare (a b : xreal) : comparison :=
  match a, b with
  | XNegInf, XNegInf => Eq
  | XNegInf, _ => Lt
  | _, XNegInf => Gt
  | XPosInf, XPosInf => Eq
  | XPosInf, _ => Gt
  | _, XPosInf => Lt
  | XFin p, XFin q => Qcompare p q
  end.

(** Python compares two numbers, ints and floats alike, by their exact
    values (IEEE 754 comparison for two floats, [float_richcompare] for an
    int and a float); a NaN is unordered, every comparison with it is
    false. *)
Definition py_cmp (a b : pynum) : option comparison :=
  match pynum_value a, pynum_value b with
  | Some u, Some v => Some (xcompare u v)
  | _, _ => None
  end.

(** [a < b], [a <= b], [a > b], [a >= b] on numbers. *)
Definition py_lt (a b : pynum) : bool := match py_cmp a b with Some Lt => true | _ => false end.
Definition py_le (a b : pynum) : bool := match py_cmp a b with Some Lt | Some Eq => true | _ => false end.
Definition py_gt (a b : pynum) : bool := match py_cmp a b with Some Gt => true | _ => false end.
Definition py_ge (a b : pynum) : bool := match py_cmp a b with Some Gt | Some Eq => true | _ => false end.

(** [math.isnan] *)
Definition py_isnan (n : pynum) : bool :=
  match n with PyInt _ => false | PyFloat x => is_nan x end.

(** A JSON value used as a number, as in a comparison with a float:
    numbers and booleans ([bool] is a subclass of [int]) are numeric;
    comparing any other value with a float raises [TypeError]. *)
Definition py_number (x : json) : sum exn pynum :=
  match x with
  | JBool b => inr (PyInt (if b then 1 else 0))
  | JInt z => inr (PyInt z)
  | JFloat x => inr (PyFloat x)
  | _ => inl TypeError
  end.

(** [n * 100] on a number: exact on ints, rounded on floats. *)
Definition py_num_mul100 (n : pynum) : pynum :=
  match n with
  | PyInt z => PyInt (z * 100)
  | PyFloat x => PyFloat (x * 100)%float
  end.

(** [x * 100] on a JSON value: a number for numbers and booleans; a
    string or a list is repeated 100 times without error ([None] here:
    it is no number, and comparing it with a float later raises
    [TypeError]); [None] and dicts raise [TypeError]. *)
Definition py_mul100 (x : json) : sum exn (option pynum) :=
  match x with
  | JStr _ | JArr _ => inr None
  | _ => match py_number x with
         | inr n => inr (Some (py_num_mul100 n))
         | inl e => inl e
         end
  end.


(** ** String helpers of the Python standard library *)

Fixpoint str_prefix (p s : string) : bool :=
  match p, s with
  | EmptyString, _ => true
  | String a p', String b s' => Ascii.eqb a b && str_prefix p' s'
  | String _ _, EmptyString => false
  end.

Fixpoint str_rev (s : string) : string :=
  match s with
  | EmptyString => EmptyString
  | String a s' => str_rev s' ++ String a EmptyString
  end.

(** [s.endswith(suffix)] *)
Definition endswith (s suffix : string) : bool :=
  str_prefix (str_rev suffix) (str_rev s).

(** [s.replace(old, "")] with a non-empty [old]: every non-overlapping
    occurrence, scanned left to right, is removed. *)
Fixpoint replace_empty_go (fuel : nat) (old s : string) : string :=
  match fuel with
  | O => s
  | S fuel' =>
      match s with
      | EmptyString => EmptyString
      | String a s' =>
          if str_prefix old s
          then replace_empty_go fuel' old (String.substring (String.length old) (String.length s) s)
          else String a (replace_empty_go fuel' old s')
      end
  end.

Definition replace_empty (s old : string) : string :=
  replace_empty_go (S (String.length s)) old s.

(** [os.path.join(a, b)] for two components. *)
Definition path_join (a b : string) : string :=
  if str_prefix "/" b then b
  else if String.eqb a "" then b
  else if endswith a "/" then a ++ b
  else a ++ "/" ++ b.

(** [os.path.basename(p)]: the part after the last slash. *)
Fixpoint basename_go (s acc : string) : string :=
  match s with
  | EmptyString => acc
  | String a s' =>
      if Ascii.eqb a "/"%char then basename_go s' "" else basename_go s' (acc ++ String a "")
  end.

Definition basename (p : string) : string := basename_go p "".
(** ** The file system the scripts read *)

(** A two-dimensional numpy array: its shape and its elements. *)
Record ndarray (A : Type) : Type := {
  a_rows : nat;
  a_cols : nat;
  a_get : nat -> nat -> A
}.
Arguments a_rows {A}.
Arguments a_cols {A}.
Arguments a_get {A}.
Arguments Build_ndarray {A}.

(** What [band.ReadAsArray()] returns: a two-dimensional array of the
    raster's values, or [None] when the read fails. The values of every
    integer and float raster type GDAL reads (up to 32-bit integers and
    [Float64]) are doubles exactly. *)
Inductive band : Type :=
| BandArray (a : ndarray float)
| BandNone.

(** What [gdal.Open(path, GA_ReadOnly)] does: return a dataset (its
    raster bands, in order), return [None], or raise (when GDAL exceptions
    are enabled). *)
Inductive gdal_result : Type :=
| GdalDataset (bands : list band)
| GdalNone
| GdalRaise.

Record fs : Type := {
  fs_exists : string -> bool;              (* os.path.exists *)
  fs_listdir : list string;                (* os.listdir(input_dir) *)
  fs_json : string -> option json;         (* json.load(open(p)); None: raises *)
  fs_gdal : string -> gdal_result          (* gdal.Open *)
}.

(** Lines printed to standard output. *)
Inductive event : Type :=
| WarnTiffNotFound (name : string)
| WarnUdm2NotFound (name : string)
| ErrCannotOpen (name : string)
| ErrProcessing (name : string)
| SceneStatus (base : string) (selected : bool) (cloud : pynum) (water clear : float) (reason : string).

(** ** numpy operations *)

(** [a == b] on numbers. *)
Definition py_eq (a b : pynum) : bool := match py_cmp a b with Some Eq => true | _ => false end.

(** An int converted to a double, rounded to nearest even (CPython's
    [PyLong_AsDouble], numpy's [int64] to [float64]); [None] when the
    result overflows, where Python raises [OverflowError]. *)
Definition int_to_float (z : Z) : option float :=
  match SpecFloat.binary_normalize FloatOps.prec FloatOps.emax z 0 false with
  | S754_infinity _ => None
  | s => Some (SF2Prim s)
  end.

(** A pixel count as a double (the counts are far below [2^53]). *)
Definition float_of_Z (z : Z) : float :=
  match int_to_float z with Some x => x | None => PrimFloat.infinity end.

(** An element-wise operation on one array. *)
Definition amap {A B : Type} (f : A -> B) (x : ndarray A) : ndarray B :=
  {| a_rows := a_rows x; a_cols := a_cols x; a_get i j := f (a_get x i j) |}.

(** A Python scalar used as an array operand: shape [(1, 1)] broadcasts
    as the scalar's shape [()] does. *)
Definition ascalar {A : Type} (v : A) : ndarray A :=
  {| a_rows := 1; a_cols := 1; a_get _ _ := v |}.

(** numpy broadcasting of one dimension: equal sizes, or a size 1 that is
    stretched; any other pair is incompatible. *)
Definition bdim (a b : nat) : option nat :=
  if Nat.eqb a b then Some a
  else if Nat.eqb a 1 then Some b
  else if Nat.eqb b 1 then Some a
  else None.

(** The index into a dimension of size [d] for the broadcast index [i]. *)
Definition bidx (d i : nat) : nat := if Nat.eqb d 1 then 0 else i.

(** An element-wise binary operation with broadcasting; incompatible
    shapes raise [ValueError]. *)
Definition bcast2 {A B C : Type} (f : A -> B -> C) (x : ndarray A) (y : ndarray B)
  : sum exn (ndarray C) :=
  match bdim (a_rows x) (a_rows y), bdim (a_cols x) (a_cols y) with
  | Some r, Some c =>
      inr {| a_rows := r; a_cols := c;
             a_get i j := f (a_get x (bidx (a_rows x) i) (bidx (a_cols x) j))
                            (a_get y (bidx (a_rows y) i) (bidx (a_cols y) j)) |}
  | _, _ => inl ValueError
  end.

Fixpoint count_upto (n : nat) (f : nat -> bool) : Z :=
  match n with
  | O => 0
  | S k => count_upto k f + (if f k then 1 else 0)
  end%Z.

Fixpoint sum_upto (n : nat) (f : nat -> Z) : Z :=
  match n with
  | O => 0
  | S k => sum_upto k f + f k
  end%Z.

(** [np.sum] of a boolean array: the number of [True] elements. *)
Definition np_sum (m : ndarray bool) : Z :=
  sum_upto (a_rows m) (fun i => count_upto (a_cols m) (a_get m i)).

(** [a.size] *)
Definition np_size {A : Type} (x : ndarray A) : Z := Z.of_nat (a_rows x * a_cols x).

(** [band == v] for an integer [v]: element-wise on an array; on [None]
    Python's [None == v] is the scalar [False]. *)
Definition band_eq (b : band) (v : Z) : ndarray bool :=
  match b with
  | BandArray a => amap (fun x => py_eq (PyFloat x) (PyInt v)) a
  | BandNone => ascalar false
  end.

(** ** [detect_water_extent] *)

Record water_info : Type := {
  water_pct : float;
  clear_pct : float;
  water_pixels : Z;
  clear_pixels : Z;
  total_pixels : Z
}.

(** The initial [result] dict. *)
Definition zero_info : water_info :=
  {| water_pct := 0; clear_pct := 0; water_pixels := 0; clear_pixels := 0; total_pixels := 0 |}.

(** [ds.GetRasterBand(i).ReadAsArray()]: bands are numbered from 1; an
    absent band is [None] and [.ReadAsArray] on it raises. *)
Definition read_band (bands : list band) (i : nat) : sum exn band :=
  match nth_error bands (i - 1) with
  | Some a => inr a
  | None => inl AttributeError
  end.

(** Lines 91-110: the masks, the counts and the percentages.
    [nir_data.size] on [None] raises; the masks broadcast as numpy does;
    the counts are converted to doubles for the divisions. The test
    [nir_data < nir_threshold] is exact (numpy compares integer rasters
    exactly; a [Float32] raster against the threshold rounded to
    [float32], the same for [|nir_threshold| < 2^24]). *)
Definition water_stats (nir clear cloud : band) (nir_threshold : Z) : sum exn water_info :=
  match nir with
  | BandNone => inl AttributeError
  | BandArray nir_data =>
      let total := np_size nir_data in
      match bcast2 andb (band_eq clear 1) (band_eq cloud 0) with
      | inl e => inl e
      | inr m1 =>
          match bcast2 andb m1 (amap (fun x => py_gt (PyFloat x) (PyInt 0)) nir_data) with
          | inl e => inl e
          | inr cm =>
              let clear_px := np_sum cm in
              match bcast2 andb cm (amap (fun x => py_lt (PyFloat x) (PyInt nir_threshold)) nir_data) with
              | inl e => inl e
              | inr wm =>
                  let water_px := np_sum wm in
                  inr {| clear_pct := if (0 <? total)%Z
                                      then (float_of_Z clear_px / float_of_Z total * 100)%float
                                      else 0%float;
                         water_pct := if (0 <? clear_px)%Z
                                      then (float_of_Z water_px / float_of_Z clear_px * 100)%float
                                      else 0%float;
                         water_pixels := water_px;
                         clear_pixels := clear_px;
                         total_pixels := total |}
              end
          end
      end
  end.

(** Outcome of the [try] block: it returns early, finishes normally, or
    raises. Every statement that can raise comes before the first write to
    [result], so a raise leaves [result] at [zero_info]. *)
Inductive try_outcome : Type :=
| TryReturn (ev : list event) (r : water_info)
| TryRaise (e : exn).

Definition detect_try (F : fs) (tif_path udm2_path : string) (nir_threshold : Z) : try_outcome :=
  match fs_gdal F tif_path with
  | GdalRaise => TryRaise OSError
  | GdalNone => TryReturn [ErrCannotOpen (basename tif_path)] zero_info
  | GdalDataset bands =>
      match read_band bands 4 with
      | inl e => TryRaise e
      | inr nir =>
          match fs_gdal F udm2_path with
          | GdalRaise => TryRaise OSError
          | GdalNone => TryReturn [ErrCannotOpen (basename udm2_path)] zero_info
          | GdalDataset ubands =>
              match read_band ubands 1, read_band ubands 6 with
              | inr clear, inr cloud =>
                  match water_stats nir clear cloud nir_threshold with
                  | inr r => TryReturn [] r
                  | inl e => TryRaise e
                  end
              | inl e, _ => TryRaise e
              | _, inl e => TryRaise e
              end
          end
      end
  end.

(** [detect_water_extent(tif_path, udm2_path, nir_threshold)]: the lines
    it prints and the dict it returns. *)
Definition detect_water_extent (F : fs) (tif_path udm2_path : string) (nir_threshold : Z)
  : list event * water_info :=
  if negb (fs_exists F tif_path) then ([WarnTiffNotFound (basename tif_path)], zero_info)
  else if negb (fs_exists F udm2_path) then ([WarnUdm2NotFound (basename udm2_path)], zero_info)
  else match detect_try F tif_path udm2_path nir_threshold with
       | TryReturn ev r => (ev, r)
       | TryRaise _ => ([ErrProcessing (basename tif_path)], zero_info)
       end.

(** ** The flood-aware selection decision (lines 192-209) *)

Definition flood_decision (cloud_max min_water_pct cloud_cover : pynum) (water : float) : bool * string :=
  if py_le cloud_cover cloud_max then (true, "low_cloud")
  else if py_ge (PyFloat water) min_water_pct then (true, "high_cloud_water")
  else (false, "high_cloud_no_water").

(** ** A stable sort

    Python's [sorted] and [list.sort] are stable, also with
    [reverse=True]. [sort_by before] is insertion sort: [x] goes in front
    of [y] when [before x y]; an element that comes earlier in the input
    stays in front of a later one exactly when [before] holds. *)
Section Sort.
Context {A : Type} (before : A -> A -> bool).

Fixpoint sort_insert (x : A) (l : list A) : list A :=
  match l with
  | [] => [x]
  | y :: r => if before x y then x :: y :: r else y :: sort_insert x r
  end.

Fixpoint sort_by (l : list A) : list A :=
  match l with
  | [] => []
  | x :: r => sort_insert x (sort_by r)
  end.
End Sort.

(** [sorted(names)]: ascending code-point order. *)
Definition sorted_names (l : list string) : list string :=
  sort_by (fun x y => String.leb x y) l.

(** ** [select_scenes_flood_aware] *)

Record flood_stats : Type := {
  total_scenes : nat;
  accepted : nat;
  rejected : nat;
  low_cloud_accept : nat;
  high_cloud_water_accept : nat;
  high_cloud_no_water_reject : nat
}.

Definition stats0 : flood_stats := {| total_scenes := 0; accepted := 0; rejected := 0;
  low_cloud_accept := 0; high_cloud_water_accept := 0; high_cloud_no_water_reject := 0 |}.

(** A row of the output shapefile: the polygon [coords[0]] and the
    values passed to [w.record] (pyshp writes the [N] fields as decimal
    text rounded to two decimals). *)
Record shp_row : Type := {
  row_poly : json;
  row_scene_id : string;
  row_acquired : json;
  row_cloud_cov : pynum;
  row_clear_pct : float;
  row_water_pct : float;
  row_gsd : json;
  row_satellite : json;
  row_sun_elev : json;
  row_sun_az : json;
  row_view_angle : json;
  row_tif_file : string;
  row_selection : string
}.

Record sel_state : Type := {
  st_out : list event;
  st_stats : flood_stats;
  st_rows : list shp_row
}.

Definition sel_state0 : sel_state := {| st_out := []; st_stats := stats0; st_rows := [] |}.

Definition bump_total (s : flood_stats) : flood_stats :=
  {| total_scenes := S (total_scenes s); accepted := accepted s; rejected := rejected s;
     low_cloud_accept := low_cloud_accept s; high_cloud_water_accept := high_cloud_water_accept s;
     high_cloud_no_water_reject := high_cloud_no_water_reject s |}.

(** The counter incremented in the branch that set [selection_reason]. *)
Definition bump_reason (reason : string) (s : flood_stats) : flood_stats :=
  {| total_scenes := total_scenes s; accepted := accepted s; rejected := rejected s;
     low_cloud_accept := if String.eqb reason "low_cloud" then S (low_cloud_accept s) else low_cloud_accept s;
     high_cloud_water_accept :=
       if String.eqb reason "high_cloud_water" then S (high_cloud_water_accept s) else high_cloud_water_accept s;
     high_cloud_no_water_reject :=
       if String.eqb reason "high_cloud_no_water" then S (high_cloud_no_water_reject s)
       else high_cloud_no_water_reject s |}.

Definition bump_selected (selected : bool) (s : flood_stats) : flood_stats :=
  {| total_scenes := total_scenes s;
     accepted := if selected then S (accepted s) else accepted s;
     rejected := if selected then rejected s else S (rejected s);
     low_cloud_accept := low_cloud_accept s; high_cloud_water_accept := high_cloud_water_accept s;
     high_cloud_no_water_reject := high_cloud_no_water_reject s |}.

(** Python truthiness of a JSON value. *)
Definition truthy (x : json) : bool :=
  match x with
  | JNull => false
  | JBool b => b
  | JInt z => negb (z =? 0)%Z
  | JFloat x => negb (x =? 0)%float
  | JStr s => negb (String.eqb s "")
  | JArr l => match l with [] => false | _ => true end
  | JObj kv => match kv with [] => false | _ => true end
  end.

(** [coords and coords[0]]: [Some (Some p)] when the polygon [p = coords[0]]
    is written, [Some None] when the test is false, [None] when [coords[0]]
    raises (a dict has no key [0], a number is not subscriptable). *)
Definition first_ring (coords : json) : sum exn (option json) :=
  if negb (truthy coords) then inr None
  else match coords with
       | JArr (p :: _) => inr (if truthy p then Some p else None)
       | JStr (String a _) => inr (Some (JStr (String a EmptyString)))
       | JObj _ => inl KeyError
       | _ => inl TypeError
       end.

Definition obj_get (kv : list (string * json)) (k : string) (d : json) : json :=
  match assoc_get kv k with Some v => v | None => d end.

Definition tif_suffix : string := "_3B_AnalyticMS_SR_file_format.tif".
Definition udm2_suffix : string := "_3B_udm2_file_format.tif".

Definition scene_base (f : string) : string := replace_empty f "_metadata.json".

(** The footprint ring of a scene, read from its STAC json (lines
    222-229 of the flood-aware script, 69-76 of [select_scenes_to_shp.py]):
    [None] when the STAC file is absent or [coords and coords[0]] is false. *)
Definition stac_ring (F : fs) (stac_file : string) (data : list (string * json)) : sum exn (option json) :=
  if negb (fs_exists F stac_file) then inr None
  else match fs_json F stac_file with
       | None => inl JSONDecodeError
       | Some stac =>
           match py_get stac "geometry" (obj_get data "geometry" (JObj [])) with
           | inl e => inl e
           | inr geom =>
               match py_get geom "coordinates" (JArr [JArr []]) with
               | inl e => inl e
               | inr coords => first_ring coords
               end
           end
       end.

Section FloodAware.
Variables (F : fs) (input_dir : string) (cloud_max : pynum) (nir_threshold : Z) (min_water_pct : pynum).

(** Writing the geometry and the attributes of an accepted scene
    (lines 221-247). *)
Definition write_accepted (data : list (string * json)) (props : list (string * json))
           (base : string) (cloud_cover : pynum) (wi : water_info) (reason : string)
           (rows : list shp_row) : sum exn (list shp_row) :=
  match stac_ring F (path_join input_dir (base ++ ".json")) data with
  | inl e => inl e
  | inr None => inr rows
  | inr (Some ring) =>
      inr (app rows
        [{| row_poly := ring;
            row_scene_id := base;
            row_acquired := obj_get props "acquired" (JStr "");
            row_cloud_cov := cloud_cover;
            row_clear_pct := clear_pct wi;
            row_water_pct := water_pct wi;
            row_gsd := obj_get props "gsd" (JFloat 3);
            row_satellite := obj_get props "satellite_id" (JStr "");
            row_sun_elev := obj_get props "sun_elevation" (JInt 0);
            row_sun_az := obj_get props "sun_azimuth" (JInt 0);
            row_view_angle := obj_get props "view_angle" (JInt 0);
            row_tif_file := base ++ tif_suffix;
            row_selection := reason |}])
  end.

(** One iteration of the [for f in metadata_files] loop (lines 171-249):
    the state after the iteration and the exception that ended the run,
    if any. A [cloud_cover] that is a string or a list survives [* 100]
    and makes the comparison of line 195 raise [TypeError], after
    [detect_water_extent] has run and printed its lines. *)
Definition flood_step (f : string) (st : sel_state) : sel_state * option exn :=
  let st1 := {| st_out := st_out st; st_stats := bump_total (st_stats st); st_rows := st_rows st |} in
  match fs_json F (path_join input_dir f) with
  | None => (st1, Some JSONDecodeError)
  | Some data =>
      match data with
      | JObj dkv =>
          match obj_get dkv "properties" data with
          | JObj pkv =>
              match py_mul100 (obj_get pkv "cloud_cover" (JFloat 1)) with
              | inl e => (st1, Some e)
              | inr cc =>
                  let base := scene_base f in
                  let tif_file := path_join input_dir (base ++ tif_suffix) in
                  let udm2_file := path_join input_dir (base ++ udm2_suffix) in
                  let (ev, wi) := detect_water_extent F tif_file udm2_file nir_threshold in
                  match cc with
                  | None =>
                      ({| st_out := st_out st1 ++ ev; st_stats := st_stats st1; st_rows := st_rows st1 |},
                       Some TypeError)
                  | Some cloud_cover =>
                      let (selected, reason) := flood_decision cloud_max min_water_pct cloud_cover (water_pct wi) in
                      let out := (st_out st1 ++ ev ++
                                 [SceneStatus base selected cloud_cover (water_pct wi) (clear_pct wi) reason])%list in
                      let stats := bump_selected selected (bump_reason reason (st_stats st1)) in
                      if selected then
                        match write_accepted dkv pkv base cloud_cover wi reason (st_rows st1) with
                        | inl e => ({| st_out := out; st_stats := stats; st_rows := st_rows st1 |}, Some e)
                        | inr rows => ({| st_out := out; st_stats := stats; st_rows := rows |}, None)
                        end
                      else ({| st_out := out; st_stats := stats; st_rows := st_rows st1 |}, None)
                  end
              end
          | _ => (st1, Some AttributeError)
          end
      | _ => (st1, Some AttributeError)
      end
  end.

Fixpoint flood_loop (files : list string) (st : sel_state) : sel_state * option exn :=
  match files with
  | [] => (st, None)
  | f :: r =>
      match flood_step f st with
      | (st', None) => flood_loop r st'
      | (st', Some e) => (st', Some e)
      end
  end.

Definition metadata_files : list string :=
  sorted_names (List.filter (fun f => endswith f "_metadata.json") (fs_listdir F)).

(** [select_scenes_flood_aware(input_dir, output_name, cloud_max,
    nir_threshold, min_water_pct)]: the printed lines, the statistics and
    the shapefile rows, and the exception that aborted the run, if any. *)
Definition select_scenes_flood_aware : sel_state * option exn :=
  flood_loop metadata_files sel_state0.

(** The dict [detect_water_extent] returns for the scene [base]. *)
Definition detect_of (base : string) : water_info :=
  snd (detect_water_extent F (path_join input_dir (base ++ tif_suffix))
         (path_join input_dir (base ++ udm2_suffix)) nir_threshold).

(** What a printed status line of the loop records: the decision is
    [flood_decision] of the printed values, and the printed water figures
    are those [detect_water_extent] returned for that metadata file. *)
Definition status_ok (files : list string) (ev : event) : Prop :=
  match ev with
  | SceneStatus b sel c w cl r =>
      (sel, r) = flood_decision cloud_max min_water_pct c w /\
      exists f, In f files /\ b = scene_base f /\
                w = water_pct (detect_of b) /\ cl = clear_pct (detect_of b)
  | _ => True
  end.
End FloodAware.

(** The imagery of a scene is unavailable: one of the two files is missing,
    or [gdal.Open] returns [None] or raises on one of them. *)
Definition imagery_unavailable (F : fs) (tif udm : string) : Prop :=
  fs_exists F tif = false \/ fs_exists F udm = false \/
  fs_gdal F tif = GdalNone \/ fs_gdal F tif = GdalRaise \/
  fs_gdal F udm = GdalNone \/ fs_gdal F udm = GdalRaise.


(** ** [select_scenes_to_shp.py] *)

Record sel_row : Type := {
  srow_poly : json;
  srow_scene_id : string;
  srow_acquired : json;
  srow_cloud_cov : pynum;
  srow_clear_pct : json;
  srow_gsd : json;
  srow_satellite : json;
  srow_sun_elev : json;
  srow_sun_az : json;
  srow_view_angle : json;
  srow_tif_file : string
}.

(** The loop state: the rows written, [count], and the record of the
    threshold tests [cloud_cover <= cloud_threshold] the loop has run, in
    order, with their outcome. *)
Record shp_state : Type := {
  ts_rows : list sel_row;
  ts_count : nat;
  ts_tested : list (string * bool)
}.

Definition shp_state0 : shp_state := {| ts_rows := []; ts_count := 0; ts_tested := [] |}.

(** [cloud_threshold = cloud_max / 100.0]: an int [cloud_max] (the
    default [50], which argparse does not convert) is converted to a
    double first, raising [OverflowError] when too large. *)
Definition cloud_threshold (cloud_max : pynum) : sum exn float :=
  match cloud_max with
  | PyInt z => match int_to_float z with
               | Some x => inr (x / 100)%float
               | None => inl OverflowError
               end
  | PyFloat x => inr (x / 100)%float
  end.

Section ToShapefile.
Variables (F : fs) (input_dir : string) (cloud_max : pynum).

(** One iteration of [for f in sorted(os.listdir(input_dir))]
    (lines 54-94), with the threshold [cloud_threshold]. *)
Definition shp_step (threshold : float) (f : string) (st : shp_state) : shp_state * option exn :=
  if negb (endswith f "_metadata.json") then (st, None)
  else match fs_json F (path_join input_dir f) with
  | None => (st, Some JSONDecodeError)
  | Some data =>
      match data with
      | JObj dkv =>
          match obj_get dkv "properties" data with
          | JObj pkv =>
              match py_number (obj_get pkv "cloud_cover" (JFloat 1)) with
              | inl e => (st, Some e)
              | inr cloud_cover =>
                  let passed := py_le cloud_cover (PyFloat threshold) in
                  let st1 := {| ts_rows := ts_rows st; ts_count := ts_count st;
                                ts_tested := app (ts_tested st) [(f, passed)] |} in
                  if negb passed then (st1, None)
                  else
                    let base := scene_base f in
                    match stac_ring F (path_join input_dir (base ++ ".json")) dkv with
                    | inl e => (st1, Some e)
                    | inr None => (st1, None)
                    | inr (Some ring) =>
                        let row := {| srow_poly := ring;
                                      srow_scene_id := base;
                                      srow_acquired := obj_get pkv "acquired" (JStr "");
                                      srow_cloud_cov := py_num_mul100 cloud_cover;
                                      srow_clear_pct := obj_get pkv "clear_percent" (JInt 0);
                                      srow_gsd := obj_get pkv "gsd" (JFloat 3);
                                      srow_satellite := obj_get pkv "satellite_id" (JStr "");
                                      srow_sun_elev := obj_get pkv "sun_elevation" (JInt 0);
                                      srow_sun_az := obj_get pkv "sun_azimuth" (JInt 0);
                                      srow_view_angle := obj_get pkv "view_angle" (JInt 0);
                                      srow_tif_file := base ++ tif_suffix |} in
                        ({| ts_rows := app (ts_rows st1) [row]; ts_count := S (ts_count st1);
                            ts_tested := ts_tested st1 |}, None)
                    end
              end
          | _ => (st, Some AttributeError)
          end
      | _ => (st, Some AttributeError)
      end
  end.

Fixpoint shp_loop (threshold : float) (files : list string) (st : shp_state) : shp_state * option exn :=
  match files with
  | [] => (st, None)
  | f :: r =>
      match shp_step threshold f st with
      | (st', None) => shp_loop threshold r st'
      | (st', Some e) => (st', Some e)
      end
  end.

(** [select_scenes_to_shapefile(input_dir, output_name, cloud_max)]: the
    final loop state ([count] is [ts_count]) and the exception that
    aborted the run, if any. *)
Definition select_scenes_to_shapefile : shp_state * option exn :=
  match cloud_threshold cloud_max with
  | inl e => (shp_state0, Some e)
  | inr threshold => shp_loop threshold (sorted_names (fs_listdir F)) shp_state0
  end.
End ToShapefile.

(** The [cloud_cover] of a metadata file: its [properties.cloud_cover], or
    its top-level [cloud_cover] when it has no [properties], [1.0] when
    absent. *)
Definition metadata_cloud_cover (F : fs) (input_dir f : string) : option pynum :=
  match fs_json F (path_join input_dir f) with
  | Some (JObj dkv) =>
      match obj_get dkv "properties" (JObj dkv) with
      | JObj pkv => match py_number (obj_get pkv "cloud_cover" (JFloat 1)) with
                    | inr q => Some q
                    | inl _ => None
                    end
      | _ => None
      end
  | _ => None
  end.

(** A threshold test recorded by the loop: the file's [cloud_cover] and
    the outcome of [cloud_cover <= cloud_threshold]. *)
Definition test_ok (F : fs) (input_dir : string) (threshold : float) (x : string * bool) : Prop :=
  exists c, metadata_cloud_cover F input_dir (fst x) = Some c /\
            snd x = py_le c (PyFloat threshold).

(** ** [mosaic_by_geojson.py]: scenes, boundary filter and clustering *)

(** A scene dict as [read_shapefile_scenes] builds it. *)
Record scene : Type := {
  scene_id : string;
  tif_file : string;
  cloud_cov : Q;
  scene_water_pct : Q;
  centroid : Q * Q;
  bbox_size : Q * Q;
  polygon : list (Q * Q);
  geometry : list (Q * Q)
}.

(** A cluster map: the keys and scene lists of the [clusters] dict in
    insertion order. *)
Definition cluster_map : Type := list (string * list scene).

Section Boundary.
(** The boundary geometry and shapely's [polygon.intersects(boundary)]. *)
Context {Boundary : Type} (intersects : list (Q * Q) -> Boundary -> bool).

Fixpoint filter_scenes_go (scenes filtered : list scene) (boundary : Boundary) : list scene :=
  match scenes with
  | [] => filtered
  | s :: r =>
      filter_scenes_go r (if intersects (polygon s) boundary then (filtered ++ [s])%list else filtered)
        boundary
  end.

(** [filter_scenes_by_boundary(scenes, boundary)] *)
Definition filter_scenes_by_boundary (scenes : list scene) (boundary : Boundary) : list scene :=
  filter_scenes_go scenes [] boundary.
End Boundary.

Fixpoint Qsum (l : list Q) : Q :=
  match l with [] => 0%Q | x :: r => (x + Qsum r)%Q end.

(** [np.mean] of a non-empty list. *)
Definition np_mean (l : list Q) : Q := (Qsum l / inject_Z (Z.of_nat (length l)))%Q.

(** The key of the cluster of a scene with DBSCAN label [label]; the
    noise counter is incremented first for a noise point. *)
Definition cluster_key (label : Z) (noise_count : nat) : string * nat :=
  if (label =? -1)%Z then ("single_" ++ pretty (Z.of_nat (S noise_count)), S noise_count)
  else ("cluster_" ++ pretty (label + 1)%Z, noise_count).

(** [clusters[cluster_id].append(scene)], creating the key first if it is
    absent. *)
Fixpoint cluster_add (cid : string) (s : scene) (cl : cluster_map) : cluster_map :=
  match cl with
  | [] => [(cid, [s])]
  | (k, l) :: r => if String.eqb k cid then (k, (l ++ [s])%list) :: r else (k, l) :: cluster_add cid s r
  end.

(** The [for scene, label in zip(scenes, labels)] loop. *)
Fixpoint organize (pairs : list (scene * Z)) (cl : cluster_map) (noise_count : nat) : cluster_map :=
  match pairs with
  | [] => cl
  | (s, label) :: r =>
      let (cid, nc) := cluster_key label noise_count in
      organize r (cluster_add cid s cl) nc
  end.

(** [.sort(key=lambda s: s['cloud_cov'], reverse=True)] *)
Definition sort_by_cloud_desc (l : list scene) : list scene :=
  sort_by (fun x y => Qle_bool (cloud_cov y) (cloud_cov x)) l.

Section Cluster.
(** sklearn's [DBSCAN(eps, min_samples, metric).fit_predict(points)]: one
    label per point, [-1] for noise. *)
Variable dbscan : Q -> Z -> string -> list (Q * Q) -> list Z.

(** [cluster_scenes(scenes, eps_factor, min_samples)] *)
Definition cluster_scenes (scenes : list scene) (eps_factor : Q) (min_samples : Z) : cluster_map :=
  match scenes with
  | [] => []
  | _ =>
      let centroids := List.map centroid scenes in
      let avg_width := np_mean (List.map (fun s => fst (bbox_size s)) scenes) in
      let avg_height := np_mean (List.map (fun s => snd (bbox_size s)) scenes) in
      let avg_size := ((avg_width + avg_height) / 2)%Q in
      let eps := (eps_factor * avg_size)%Q in
      let labels := dbscan eps min_samples "euclidean" centroids in
      let clusters := organize (combine scenes labels) [] 0 in
      List.map (fun kl => (fst kl, sort_by_cloud_desc (snd kl))) clusters
  end.
End Cluster.

(** The average scene size in the words of the specification: the mean
    of the scenes' mean bounding-box width and mean bounding-box height. *)
Definition spec_avg_scene_size (scenes : list scene) : Q :=
  ((np_mean (List.map (fun s => fst (bbox_size s)) scenes)
    + np_mean (List.map (fun s => snd (bbox_size s)) scenes)) / 2)%Q.

(** ** [generate_mosaic_script] *)

(** The double-quote character. [lit s] is the literal [s] with every
    backquote written as a double quote (none of the script's literals
    contains a backquote). *)
Definition dq : string := String (ascii_of_nat 34) EmptyString.

Fixpoint lit (s : string) : string :=
  match s with
  | EmptyString => EmptyString
  | String a r => if Ascii.eqb a "`"%char then dq ++ lit r else String a (lit r)
  end.

Definition default_otb_path : string := "/Users/macbook/OTB-8.1.2-Darwin64/bin/otbcli_Mosaic".

(** The fixed header, up to and including the [mosaic_cluster] function. *)
Definition script_header (otb_path data_dir output_dir aoi_name : string) : list string := [
  "#!/bin/bash";
  "#";
  "# Auto-generated mosaic script for " ++ aoi_name;
  "# Scenes filtered by GeoJSON boundary and clustered spatially";
  "#";
  "";
  "# Configuration";
  lit "OTB_MOSAIC=`" ++ otb_path ++ dq;
  lit "INPUT_DIR=`" ++ data_dir ++ dq;
  lit "OUTPUT_DIR=`" ++ output_dir ++ dq;
  "";
  "# Create output directory";
  lit "mkdir -p `$OUTPUT_DIR`";
  "";
  lit "echo `==========================================`";
  lit "echo `PlanetScope Mosaic - " ++ aoi_name ++ dq;
  lit "echo `Scenes ordered by cloud cover (highest first = bottom)`";
  lit "echo `==========================================`";
  lit "echo `Input directory: $INPUT_DIR`";
  lit "echo `Output directory: $OUTPUT_DIR`";
  lit "echo ``";
  "";
  "# Function to mosaic a cluster";
  "mosaic_cluster() {";
  "    local cluster=$1";
  "    shift";
  lit "    local files=(`$@`)";
  "";
  lit "    echo `Processing Cluster $cluster (${#files[@]} scenes)...`";
  "";
  "    # Build input list";
  lit "    local input_files=``";
  lit "    for f in `${files[@]}`; do";
  lit "        input_files=`$input_files \`$INPUT_DIR/$f\```";
  "    done";
  "";
  lit "    local output_file=`$OUTPUT_DIR/mosaic_${cluster}.tif`";
  "";
  "    # Run OTB Mosaic";
  lit "    eval `$OTB_MOSAIC` \";
  "        -il $input_files \";
  lit "        -out `\`$output_file\``` uint16 \";
  "        -comp.feather large \";
  "        -harmo.method band \";
  "        -harmo.cost rmse \";
  "        -interpolator nn \";
  "        -nodata 0 \";
  lit "        2>&1 | grep -v `^WARN`";
  "";
  lit "    if [ -f `$output_file` ]; then";
  lit "        echo `  -> Created: $output_file`";
  "    else";
  lit "        echo `  -> ERROR creating mosaic for cluster $cluster`";
  "    fi";
  lit "    echo ``";
  "}";
  ""
].

Definition script_footer : list string := [
  lit "echo `==========================================`";
  lit "echo `Mosaic complete!`";
  lit "echo `Output files in: $OUTPUT_DIR`";
  lit "ls -lh `$OUTPUT_DIR`/mosaic_*.tif 2>/dev/null || echo `No output files found`";
  lit "echo `==========================================`";
  ""
].

(** [max(...)] and [min(...)] of a generator: [ValueError] when it is
    empty; the first extremal element otherwise. *)
Definition py_max (l : list Q) : sum exn Q :=
  match l with
  | [] => inl ValueError
  | x :: r => inr (fold_left (fun m y => if negb (Qle_bool y m) then y else m) r x)
  end.

Definition py_min (l : list Q) : sum exn Q :=
  match l with
  | [] => inl ValueError
  | x :: r => inr (fold_left (fun m y => if negb (Qle_bool m y) then y else m) r x)
  end.

(** The line calling [mosaic_cluster] for a cluster. *)
Definition invocation_line (cid : string) : string := "mosaic_cluster " ++ cid ++ " \".

(** The argument lines: [    "tif" \] for every scene but the last, and
    [    "tif"] for the last one (the [enumerate] loop). *)
Fixpoint tif_lines (tifs : list string) : list string :=
  match tifs with
  | [] => []
  | [t] => [lit "    `" ++ t ++ dq]
  | t :: r => (lit "    `" ++ t ++ dq ++ " \") :: tif_lines r
  end.

(** A line that calls [mosaic_cluster]: it starts with the function name
    followed by a space (the definition line [mosaic_cluster() {] does
    not). *)
Definition is_invocation (line : string) : bool := str_prefix "mosaic_cluster " line.

(** How a function that writes a file ends: it raises (after writing
    [written], the path and text of a file it wrote, if any), or it
    returns [result] after writing [text] to [path]. *)
Inductive write_outcome (A : Type) : Type :=
| WRaise (written : option (string * string)) (e : exn)
| WDone (path text : string) (result : A).
Arguments WRaise {A}.
Arguments WDone {A}.

Section Generate.
(** Python's [format(x, '.0f')]. *)
Variable format_0f : Q -> string.

(** The lines emitted for one cluster (lines 258-275). *)
Definition cluster_lines (c : string * list scene) : sum exn (list string) :=
  let (cid, l) := c in
  match py_max (List.map cloud_cov l), py_min (List.map cloud_cov l) with
  | inr mx, inr mn =>
      let cloud_range := format_0f mx ++ "% -> " ++ format_0f mn ++ "%" in
      let comment := "# " ++ cid ++ ": " ++ pretty (Z.of_nat (length l)) ++ " scenes (cloud cover: "
                     ++ cloud_range ++ ")" in
      inr (comment :: invocation_line cid :: app (tif_lines (List.map tif_file l)) [""])
  | inl e, _ => inl e
  | _, inl e => inl e
  end.

Fixpoint clusters_lines (cs : cluster_map) : sum exn (list string) :=
  match cs with
  | [] => inr []
  | c :: r =>
      match cluster_lines c with
      | inl e => inl e
      | inr ls => match clusters_lines r with
                  | inl e => inl e
                  | inr rs => inr (ls ++ rs)%list
                  end
      end
  end.

(** [sorted(clusters.items(), key=lambda x: len(x[1]), reverse=True)] *)
Definition sort_clusters (cs : cluster_map) : cluster_map :=
  sort_by (fun x y => Nat.leb (length (snd y)) (length (snd x))) cs.

Definition mosaic_script_lines (clusters : cluster_map) (data_dir aoi_name : string)
           (otb_path : option string) : sum exn (list string) :=
  let otb := match otb_path with Some p => p | None => default_otb_path end in
  let output_dir := path_join data_dir ("mosaic_" ++ aoi_name) in
  match clusters_lines (sort_clusters clusters) with
  | inl e => inl e
  | inr body => inr (script_header otb data_dir output_dir aoi_name ++ body ++ script_footer)%list
  end.

(** ['\n'.join(lines)] *)
Definition join_lines (ls : list string) : string := String.concat (String "010"%char EmptyString) ls.

(** The file system calls of lines 287-292: [write_text p s] is
    [with open(p, 'w') as f: f.write(s)] ([Some e]: it raises [e], an
    [OSError]); [chmod p] is [os.chmod(p, 0o755)]. *)
Variables (write_text : string -> string -> option exn) (chmod : string -> option exn).

(** [generate_mosaic_script(clusters, data_dir, output_script, aoi_name,
    otb_path)]: the text written to [output_script] and the returned
    [sorted_clusters], or the exception raised, before the file is
    written or (by [os.chmod]) after. *)
Definition generate_mosaic_script (clusters : cluster_map) (data_dir output_script aoi_name : string)
           (otb_path : option string) : write_outcome cluster_map :=
  match mosaic_script_lines clusters data_dir aoi_name otb_path with
  | inl e => WRaise None e
  | inr ls =>
      let text := join_lines ls in
      match write_text output_script text with
      | Some e => WRaise None e
      | None =>
          match chmod output_script with
          | Some e => WRaise (Some (output_script, text)) e
          | None => WDone output_script text (sort_clusters clusters)
          end
      end
  end.
End Generate.

(** ** A concrete directory used by the examples and witnesses *)

(** A band given by its rows. *)
Definition of_rows (rows : list (list float)) : band :=
  BandArray {| a_rows := length rows; a_cols := length (hd [] rows);
               a_get i j := nth j (nth i rows []) 0%float |}.

Definition demo_dir : string := "d".

Definition demo_fs : fs := {|
  fs_exists := fun p =>
    String.eqb p ("d/a" ++ tif_suffix) || String.eqb p ("d/a" ++ udm2_suffix)
    || String.eqb p "d/a.json";
  fs_listdir := ["b_metadata.json"; "notes.txt"; "a_metadata.json"; "c_metadata.json"];
  fs_json := fun p =>
    if String.eqb p "d/a_metadata.json" then
      Some (JObj [("properties", JObj [("cloud_cover", JFloat 0.9); ("gsd", JFloat 3)])])
    else if String.eqb p "d/b_metadata.json" then
      Some (JObj [("properties", JObj [("cloud_cover", JFloat 0.2)])])
    else if String.eqb p "d/c_metadata.json" then
      Some (JObj [("cloud_cover", JFloat 0.95)])
    else if String.eqb p "d/a.json" then
      Some (JObj [("geometry", JObj [("coordinates", JArr [JArr [JArr [JInt 0; JInt 0]]])])])
    else None;
  fs_gdal := fun p =>
    if String.eqb p ("d/a" ++ tif_suffix) then
      GdalDataset [of_rows [[1; 1]]%float; of_rows [[1; 1]]%float; of_rows [[1; 1]]%float; of_rows [[500; 2000]]%float]
    else if String.eqb p ("d/a" ++ udm2_suffix) then
      GdalDataset [of_rows [[1; 1]]%float; of_rows [[0]]%float; of_rows [[0]]%float; of_rows [[0]]%float; of_rows [[0]]%float;
                   of_rows [[0; 0]]%float]
    else GdalNone
|}.



(** ** Concrete scenes used by the examples and witnesses *)

Definition mk_scene (id : string) (cloud x : Q) : scene :=
  {| scene_id := id; tif_file := id ++ tif_suffix; cloud_cov := cloud; scene_water_pct := 0;
     centroid := (x, 0%Q); bbox_size := (1%Q, 1%Q);
     polygon := [(x, 0%Q); ((x + 1)%Q, 0%Q); ((x + 1)%Q, 1%Q)]; geometry := [] |}.

Definition demo_scenes : list scene :=
  [mk_scene "s1" 10 0; mk_scene "s2" 30 1; mk_scene "s3" 20 9; mk_scene "s4" 50 2].

(** A stand-in for DBSCAN: points left of [x = 5] form cluster 0, the
    others are noise. *)
Definition demo_dbscan (eps : Q) (min_samples : Z) (metric : string) (pts : list (Q * Q)) : list Z :=
  List.map (fun p => if Qle_bool (fst p) 5 then 0%Z else (-1)%Z) pts.

(** A stand-in for [format(x, '.0f')]: the integer part. *)
Definition demo_format (q : Q) : string := pretty (Qnum q / Zpos (Qden q))%Z.

(** A stand-in for shapely's intersection test: some vertex lies left of
    the boundary abscissa. *)
Definition demo_intersects (poly : list (Q * Q)) (xmax : Q) : bool :=
  existsb (fun p => Qle_bool (fst p) xmax) poly.

(** A second stand-in for DBSCAN that agrees with [demo_dbscan] only at
    the radius [cluster_scenes] uses on [demo_scenes]. *)
Definition demo_dbscan_at_eps (eps : Q) (min_samples : Z) (metric : string) (pts : list (Q * Q)) : list Z :=
  if Qeq_bool eps ((3 # 2) * spec_avg_scene_size demo_scenes)%Q
  then demo_dbscan eps min_samples metric pts
  else List.map (fun _ => (-1)%Z) pts.

(** ** [read_geojson_boundary] *)

(** [x[k]] on a parsed JSON value: a missing key raises [KeyError], a
    value that is not a dict is not subscriptable by a string. *)
Definition py_index (x : json) (k : string) : sum exn json :=
  match x with
  | JObj kv => match assoc_get kv k with Some v => inr v | None => inl KeyError end
  | _ => inl TypeError
  end.

(** [for x in v]: a list yields its elements, a dict its keys, a string
    its characters; any other value is not iterable. *)
Definition py_iter (v : json) : sum exn (list json) :=
  match v with
  | JArr l => inr l
  | JObj kv => inr (List.map (fun p => JStr (fst p)) kv)
  | JStr s => inr (List.map (fun a => JStr (String a EmptyString)) (list_ascii_of_string s))
  | _ => inl TypeError
  end.

(** [v == s] for a string literal [s]. *)
Definition json_is_str (v : json) (s : string) : bool :=
  match v with JStr t => String.eqb t s | _ => false end.

Section Geojson.
(** shapely's [shape(geometry)] and [unary_union(geometries)]. *)
Context {Geom : Type} (shape : json -> sum exn Geom) (unary_union : list Geom -> Geom).

(** [[shape(feature['geometry']) for feature in features]] *)
Fixpoint feature_shapes (features : list json) : sum exn (list Geom) :=
  match features with
  | [] => inr []
  | feature :: r =>
      match py_index feature "geometry" with
      | inl e => inl e
      | inr g =>
          match shape g with
          | inl e => inl e
          | inr s => match feature_shapes r with
                     | inl e => inl e
                     | inr ss => inr (s :: ss)
                     end
          end
      end
  end.

(** The body of [read_geojson_boundary] after [json.load]. *)
Definition boundary_of_json (geojson_data : json) : sum exn Geom :=
  match py_index geojson_data "type" with
  | inl e => inl e
  | inr t =>
      if json_is_str t "FeatureCollection" then
        match py_index geojson_data "features" with
        | inl e => inl e
        | inr fv =>
            match py_iter fv with
            | inl e => inl e
            | inr features =>
                match feature_shapes features with
                | inl e => inl e
                | inr [g] => inr g
                | inr geometries => inr (unary_union geometries)
                end
            end
        end
      else if json_is_str t "Feature" then
        match py_index geojson_data "geometry" with
        | inl e => inl e
        | inr g => shape g
        end
      else shape geojson_data
  end.

(** [read_geojson_boundary(geojson_path)] *)
Definition read_geojson_boundary (F : fs) (geojson_path : string) : sum exn Geom :=
  match fs_json F geojson_path with
  | None => inl JSONDecodeError
  | Some d => boundary_of_json d
  end.
End Geojson.

(** ** [main] of [mosaic_by_geojson.py] *)

(** [p.rfind(c)]: the index of the last occurrence, [None] for [-1]. *)
Fixpoint rfind_go (c : ascii) (s : string) (i : nat) (found : option nat) : option nat :=
  match s with
  | EmptyString => found
  | String a r => rfind_go c r (S i) (if Ascii.eqb a c then Some i else found)
  end.

Definition rfind (c : ascii) (s : string) : option nat := rfind_go c s 0 None.

(** [os.path.splitext(p)] (posixpath, [genericpath._splitext]): the
    extension starts at the last dot after the last slash, provided
    the file name has a character other than a dot before it. *)
Definition splitext (p : string) : string * string :=
  let filename_index := match rfind "/"%char p with Some i => S i | None => 0 end in
  match rfind "."%char p with
  | Some dot_index =>
      if Nat.leb filename_index dot_index then
        if existsb (fun a => negb (Ascii.eqb a "."%char))
             (list_ascii_of_string (String.substring filename_index (dot_index - filename_index) p))
        then (String.substring 0 dot_index p, String.substring dot_index (String.length p - dot_index) p)
        else (p, "")
      else (p, "")
  | None => (p, "")
  end.

(** [aoi_name = os.path.splitext(os.path.basename(args.geojson))[0]] *)
Definition aoi_name_of (geojson : string) : string := fst (splitext (basename geojson)).

(** [clusters[cid]] on a cluster map: the list stored under the key. *)
Fixpoint cm_lookup (k : string) (cl : cluster_map) : option (list scene) :=
  match cl with
  | [] => None
  | (k', l) :: r => if String.eqb k' k then Some l else cm_lookup k r
  end.

(** The line printed for a cluster in the cluster summary of [main]
    (lines 409-417); [format_1f] is [format(x, '.1f')]. The division by
    [scene_count] is reached only when [min] succeeded, so the list is not
    empty there. *)
Definition summary_line (format_0f format_1f : Q -> string) (c : string * list scene) : sum exn string :=
  let (cid, l) := c in
  match py_min (List.map cloud_cov l), py_max (List.map cloud_cov l) with
  | inr cloud_min, inr cloud_max =>
      let scene_count := length l in
      let water_avg := (Qsum (List.map scene_water_pct l) / inject_Z (Z.of_nat scene_count))%Q in
      inr ("  " ++ cid ++ ": " ++ pretty (Z.of_nat scene_count) ++ " scenes | Cloud: "
           ++ format_0f cloud_max ++ "%-" ++ format_0f cloud_min ++ "% | Avg Water: "
           ++ format_1f water_avg ++ "%")
  | inl e, _ => inl e
  | _, inl e => inl e
  end.

Fixpoint summary_lines (format_0f format_1f : Q -> string) (cs : cluster_map) : sum exn (list string) :=
  match cs with
  | [] => inr []
  | c :: r =>
      match summary_line format_0f format_1f c with
      | inl e => inl e
      | inr s => match summary_lines format_0f format_1f r with
                 | inl e => inl e
                 | inr ss => inr (s :: ss)
                 end
      end
  end.

(** The command-line arguments of [main]. *)
Record mosaic_args : Type := {
  arg_shapefile : string;
  arg_geojson : string;
  arg_data_dir : string;
  arg_output_script : string;
  arg_otb_path : option string;
  arg_eps_factor : Q;
  arg_min_samples : Z
}.

(** How [main] ends: [sys.exit(1)] after printing the error lines, an
    uncaught exception (raised after the script file [written] was
    written, if any), or the mosaic script written to [script_path], with
    the cluster summary lines printed before. *)
Inductive main_outcome : Type :=
| MainExit (msg : list string)
| MainRaise (written : option (string * string)) (e : exn)
| MainDone (summary : list string) (script_path script_text : string) (n_filtered n_all n_clusters : nat).

Definition nl : string := String "010"%char EmptyString.

(** The [eps] [cluster_scenes] passes to DBSCAN. *)
Definition cluster_eps (scenes : list scene) (eps_factor : Q) : Q :=
  (eps_factor * spec_avg_scene_size scenes)%Q.

Section MosaicMain.
(** shapely, sklearn, pyshp and the file system: [shape], [unary_union],
    [polygon.intersects], DBSCAN's labels, the validation of DBSCAN's
    parameters ([Some e]: [fit_predict] raises [e], as sklearn does for
    [eps <= 0] or [min_samples < 1]), the two float formats,
    [os.path.isdir], [read_shapefile_scenes] (which builds the scene
    dicts with shapely's centroid and bounds), and the writing and
    [chmod] of the output script. *)
Context {Geom : Type} (shape : json -> sum exn Geom) (unary_union : list Geom -> Geom)
        (intersects : list (Q * Q) -> Geom -> bool)
        (dbscan : Q -> Z -> string -> list (Q * Q) -> list Z)
        (dbscan_check : Q -> Z -> option exn)
        (format_0f format_1f : Q -> string)
        (isdir : string -> bool)
        (read_shapefile_scenes : string -> sum exn (list scene))
        (write_text : string -> string -> option exn) (chmod : string -> option exn).
Variable F : fs.

(** [main()] after argument parsing (lines 357-432). *)
Definition mosaic_main (args : mosaic_args) : main_outcome :=
  if negb (fs_exists F (arg_shapefile args)) then
    MainExit ["ERROR: Shapefile not found: " ++ arg_shapefile args]
  else if negb (fs_exists F (arg_geojson args)) then
    MainExit ["ERROR: GeoJSON file not found: " ++ arg_geojson args]
  else if negb (isdir (arg_data_dir args)) then
    MainExit ["ERROR: Data directory not found: " ++ arg_data_dir args]
  else
    let aoi_name := aoi_name_of (arg_geojson args) in
    match read_geojson_boundary shape unary_union F (arg_geojson args) with
    | inl e => MainRaise None e
    | inr boundary =>
        match read_shapefile_scenes (arg_shapefile args) with
        | inl e => MainRaise None e
        | inr all_scenes =>
            let filtered_scenes := filter_scenes_by_boundary intersects all_scenes boundary in
            match filtered_scenes with
            | [] =>
                MainExit [nl ++ "ERROR: No scenes intersect with the boundary!"; "Check that:";
                          "  1. GeoJSON and shapefile use the same coordinate system";
                          "  2. The boundary overlaps with the scene footprints"]
            | _ =>
                match dbscan_check (cluster_eps filtered_scenes (arg_eps_factor args)) (arg_min_samples args) with
                | Some e => MainRaise None e
                | None =>
                    let clusters := cluster_scenes dbscan filtered_scenes (arg_eps_factor args)
                                      (arg_min_samples args) in
                    match summary_lines format_0f format_1f (sort_clusters clusters) with
                    | inl e => MainRaise None e
                    | inr summary =>
                        match generate_mosaic_script format_0f write_text chmod clusters (arg_data_dir args)
                                (arg_output_script args) aoi_name (arg_otb_path args) with
                        | WRaise w e => MainRaise w e
                        | WDone path text _ =>
                            MainDone summary path text (length filtered_scenes)
                              (length all_scenes) (length clusters)
                        end
                    end
                end
            end
        end
    end.
End MosaicMain.

(** ** Further predicates on the loops' results *)

(** The statistics of [select_scenes_flood_aware] add up. *)
Definition stats_consistent (s : flood_stats) : Prop :=
  accepted s = (low_cloud_accept s + high_cloud_water_accept s)%nat /\
  rejected s = high_cloud_no_water_reject s /\
  total_scenes s = (accepted s + rejected s)%nat.

(** A row of the flood-aware shapefile: its reason is the decision for its
    cloud cover and water percentage, and its [tif_file] is named after
    its scene id. *)
Definition flood_row_ok (cloud_max min_water_pct : pynum) (r : shp_row) : Prop :=
  (true, row_selection r) = flood_decision cloud_max min_water_pct (row_cloud_cov r) (row_water_pct r) /\
  row_tif_file r = row_scene_id r ++ tif_suffix.

(** The rows written so far are well-formed and at most as many as the
    accepted scenes. *)
Definition rows_inv (cloud_max min_water_pct : pynum) (st : sel_state) : Prop :=
  Forall (flood_row_ok cloud_max min_water_pct) (st_rows st) /\
  (length (st_rows st) <= accepted (st_stats st))%nat.

(** A row of [select_scenes_to_shapefile]: it comes from a metadata file
    whose [cloud_cover] passed the threshold, its [cloud_cov] is that
    [cloud_cover * 100], and its [tif_file] is named after its scene id. *)
Definition sel_row_ok (F : fs) (input_dir : string) (threshold : float) (r : sel_row) : Prop :=
  exists f c, metadata_cloud_cover F input_dir f = Some c /\ srow_scene_id r = scene_base f /\
    srow_cloud_cov r = py_num_mul100 c /\ py_le c (PyFloat threshold) = true /\
    srow_tif_file r = srow_scene_id r ++ tif_suffix.

(** The loop state of [select_scenes_to_shapefile]: [count] is the number
    of rows written, every row is as above, and there are no more rows
    than passed tests. *)
Definition shp_inv (F : fs) (input_dir : string) (threshold : float) (st : shp_state) : Prop :=
  ts_count st = length (ts_rows st) /\ Forall (sel_row_ok F input_dir threshold) (ts_rows st) /\
  (length (ts_rows st) <= length (List.filter snd (ts_tested st)))%nat.

(** [c] does not occur in [s]. *)
Fixpoint no_char (c : ascii) (s : string) : bool :=
  match s with
  | EmptyString => true
  | String a r => negb (Ascii.eqb a c) && no_char c r
  end.

(** ** Concrete inputs of [main] used by the witnesses *)

(** A boundary is an abscissa here: [shape] reads a number, the union is
    the largest one, and a scene intersects when some vertex lies left of
    it. *)
Definition demo_shape (g : json) : sum exn Q :=
  match g with JInt z => inr (inject_Z z) | _ => inl ValueError end.

Definition demo_union (gs : list Q) : Q := fold_left (fun m g => if Qle_bool m g then g else m) gs 0%Q.

Definition demo_mosaic_fs : fs := {|
  fs_exists := fun p => String.eqb p "scenes.shp" || String.eqb p "aoi/sumbar1.geojson";
  fs_listdir := [];
  fs_json := fun p =>
    if String.eqb p "aoi/sumbar1.geojson" then
      Some (JObj [("type", JStr "FeatureCollection");
                  ("features", JArr [JObj [("geometry", JInt 5)]; JObj [("geometry", JInt 3)]])])
    else None;
  fs_gdal := fun _ => GdalNone
|}.

Definition demo_args : mosaic_args :=
  {| arg_shapefile := "scenes.shp"; arg_geojson := "aoi/sumbar1.geojson"; arg_data_dir := "data";
     arg_output_script := "mosaic.sh"; arg_otb_path := None; arg_eps_factor := 3 # 2;
     arg_min_samples := 2 |}.


(** ** Lemmas on Python numbers *)

Lemma Prim2SF_not_nan x : is_nan x = false -> Prim2SF x <> S754_nan.
Proof. unfold is_nan. rewrite FloatAxioms.eqb_spec. intros H E. rewrite E in H. discriminate. Qed.

Lemma float_value_some x : is_nan x = false -> exists v, float_value x = Some v.
Proof.
  intros H. pose proof (Prim2SF_not_nan x H) as N. unfold float_value.
  destruct (Prim2SF x); [eexists; reflexivity | eexists; reflexivity | congruence | eexists; reflexivity].
Qed.

Lemma float_value_nan x : is_nan x = true -> float_value x = None.
Proof.
  intros H. unfold float_value, Prim2SF. rewrite H. reflexivity.
Qed.

Lemma xcompare_swap a b : xcompare b a = CompOpp (xcompare a b).
Proof. destruct a, b; simpl; try reflexivity. symmetry. apply Qcompare_antisym. Qed.

Lemma xcompare_eq_l a b c : xcompare a b = Eq -> xcompare a c = xcompare b c.
Proof.
  destruct a as [|p|], b as [|q|], c as [|r|]; simpl; try discriminate; try reflexivity.
  intros H. apply Qeq_alt in H. rewrite H. reflexivity.
Qed.

Lemma py_cmp_swap a b : py_cmp b a = option_map CompOpp (py_cmp a b).
Proof.
  unfold py_cmp. destruct (pynum_value a), (pynum_value b); simpl; try reflexivity.
  rewrite xcompare_swap. reflexivity.
Qed.

Lemma py_cmp_some a b : py_isnan a = false -> py_isnan b = false -> exists o, py_cmp a b = Some o.
Proof.
  assert (V : forall n, py_isnan n = false -> exists v, pynum_value n = Some v).
  { intros [z|x] H; simpl in *; [eexists; reflexivity | apply float_value_some; exact H]. }
  intros Ha Hb. destruct (V a Ha) as [u Hu], (V b Hb) as [v Hv].
  unfold py_cmp. rewrite Hu, Hv. eexists; reflexivity.
Qed.

Lemma py_cmp_nan_l a b : py_isnan a = true -> py_cmp a b = None.
Proof.
  destruct a as [z|x]; simpl; [discriminate|]. intros H.
  unfold py_cmp. simpl. rewrite float_value_nan by exact H. reflexivity.
Qed.

Lemma py_cmp_nan_r a b : py_isnan b = true -> py_cmp a b = None.
Proof.
  intros H. rewrite py_cmp_swap, py_cmp_nan_l by exact H. reflexivity.
Qed.

Lemma py_cmp_eq_l a b c : py_cmp a b = Some Eq -> py_cmp a c = py_cmp b c.
Proof.
  unfold py_cmp. destruct (pynum_value a), (pynum_value b); try discriminate.
  intros H. injection H as H. destruct (pynum_value c); [|reflexivity].
  rewrite (xcompare_eq_l _ _ _ H). reflexivity.
Qed.

Lemma py_le_gt a b : py_isnan a = false -> py_isnan b = false -> py_le a b = false -> py_gt a b = true.
Proof.
  intros Ha Hb. destruct (py_cmp_some a b Ha Hb) as [o Ho].
  unfold py_le, py_gt. rewrite Ho. destruct o; congruence.
Qed.

Lemma py_gt_le a b : py_gt a b = true -> py_le a b = false.
Proof. unfold py_le, py_gt. destruct (py_cmp a b) as [[| |]|]; congruence. Qed.

Lemma py_ge_lt a b : py_isnan a = false -> py_isnan b = false -> py_ge a b = false -> py_lt a b = true.
Proof.
  intros Ha Hb. destruct (py_cmp_some a b Ha Hb) as [o Ho].
  unfold py_ge, py_lt. rewrite Ho. destruct o; congruence.
Qed.

Lemma py_lt_ge a b : py_lt a b = true -> py_ge a b = false.
Proof. unfold py_ge, py_lt. destruct (py_cmp a b) as [[| |]|]; congruence. Qed.

Lemma pynum_value_zero : pynum_value (PyFloat 0) = pynum_value (PyInt 0).
Proof. vm_compute. reflexivity. Qed.

Lemma py_ge_zero_pos m : py_gt m (PyInt 0) = true -> py_ge (PyFloat 0) m = false.
Proof.
  assert (E : py_cmp m (PyFloat 0) = py_cmp m (PyInt 0))
    by (unfold py_cmp; rewrite pynum_value_zero; reflexivity).
  unfold py_gt, py_ge. rewrite (py_cmp_swap m (PyFloat 0)), E.
  destruct (py_cmp m (PyInt 0)) as [[| |]|]; simpl; congruence.
Qed.

(** ** Lemmas on [detect_water_extent] and the selection loop *)

Definition is_status (ev : event) : bool :=
  match ev with SceneStatus _ _ _ _ _ _ => true | _ => false end.

Lemma detect_events_not_status F tif udm nir ev :
  In ev (fst (detect_water_extent F tif udm nir)) -> is_status ev = false.
Proof.
  unfold detect_water_extent, detect_try.
  destruct (fs_exists F tif), (fs_exists F udm); simpl;
    try (intros [<-|[]]; reflexivity).
  destruct (fs_gdal F tif) as [bands| |]; simpl; try (intros [<-|[]]; reflexivity).
  destruct (read_band bands 4) as [e|nir_a]; simpl; try (intros [<-|[]]; reflexivity).
  destruct (fs_gdal F udm) as [ub| |]; simpl; try (intros [<-|[]]; reflexivity).
  destruct (read_band ub 1), (read_band ub 6); simpl; try (intros [<-|[]]; reflexivity).
  destruct (water_stats _ _ _ _); simpl; [intros [<-|[]]; reflexivity | intros []].
Qed.

Section FloodLoop.
Variables (F : fs) (input_dir : string) (cloud_max : pynum) (nir_threshold : Z) (min_water_pct : pynum).

Lemma detect_events_status_ok (f : string) evs ev :
  In ev evs -> evs = fst (detect_water_extent F (path_join input_dir (scene_base f ++ tif_suffix))
                             (path_join input_dir (scene_base f ++ udm2_suffix)) nir_threshold) ->
  status_ok F input_dir cloud_max nir_threshold min_water_pct [f] ev.
Proof.
  intros Hin ->. apply detect_events_not_status in Hin.
  destruct ev; try exact I; discriminate.
Qed.

Lemma flood_step_out f st :
  exists extra, st_out (fst (flood_step F input_dir cloud_max nir_threshold min_water_pct f st))
                = (st_out st ++ extra)%list /\
                forall ev, In ev extra -> status_ok F input_dir cloud_max nir_threshold min_water_pct [f] ev.
Proof.
  unfold flood_step.
  destruct (fs_json F (path_join input_dir f)) as [data|];
    [|exists []; split; [simpl; rewrite app_nil_r; reflexivity | intros _ []]].
  destruct data as [| | | | | |dkv];
    try (exists []; split; [simpl; rewrite app_nil_r; reflexivity | intros _ []]).
  destruct (obj_get dkv "properties" (JObj dkv)) as [| | | | | |pkv];
    try (exists []; split; [simpl; rewrite app_nil_r; reflexivity | intros _ []]).
  destruct (py_mul100 (obj_get pkv "cloud_cover" (JFloat 1))) as [e|cc];
    [exists []; split; [simpl; rewrite app_nil_r; reflexivity | intros _ []]|].
  destruct (detect_water_extent F (path_join input_dir (scene_base f ++ tif_suffix))
              (path_join input_dir (scene_base f ++ udm2_suffix)) nir_threshold)
    as [evs wi] eqn:Hd.
  destruct cc as [cc|].
  2:{ exists evs. split; [reflexivity|].
      intros ev Hin. apply (detect_events_status_ok f evs ev Hin). rewrite Hd. reflexivity. }
  destruct (flood_decision cloud_max min_water_pct cc (water_pct wi))
    as [selected reason] eqn:Hdec.
  exists (evs ++ [SceneStatus (scene_base f) selected cc (water_pct wi) (clear_pct wi) reason])%list.
  split.
  - destruct selected; [destruct (write_accepted _ _ _ _ _ _ _ _ _)|]; reflexivity.
  - intros ev Hin. apply in_app_or in Hin as [Hin|[<-|[]]].
    + apply (detect_events_status_ok f evs ev Hin). rewrite Hd. reflexivity.
    + simpl. split; [symmetry; exact Hdec|].
      exists f. unfold detect_of. rewrite Hd. simpl. tauto.
Qed.

Lemma status_ok_mono (l l' : list string) ev :
  incl l l' -> status_ok F input_dir cloud_max nir_threshold min_water_pct l ev -> status_ok F input_dir cloud_max nir_threshold min_water_pct l' ev.
Proof.
  intros Hi. destruct ev; simpl; try tauto.
  intros [Hd [f0 [Hf Hrest]]]. split; [exact Hd|]. exists f0. split; [apply Hi; exact Hf|exact Hrest].
Qed.

Lemma flood_loop_out (all files : list string) st :
  incl files all ->
  (forall ev, In ev (st_out st) -> status_ok F input_dir cloud_max nir_threshold min_water_pct all ev) ->
  forall ev, In ev (st_out (fst (flood_loop F input_dir cloud_max nir_threshold min_water_pct files st))) ->
             status_ok F input_dir cloud_max nir_threshold min_water_pct all ev.
Proof.
  revert st. induction files as [|f r IH]; intros st Hincl Hst; simpl; [exact Hst|].
  destruct (flood_step_out f st) as [extra [Hout Hok]].
  assert (Hst' : forall ev, In ev (st_out (fst (flood_step F input_dir cloud_max nir_threshold
                                                   min_water_pct f st))) -> status_ok F input_dir cloud_max nir_threshold min_water_pct all ev).
  { rewrite Hout. intros ev Hin. apply in_app_or in Hin as [Hin|Hin]; [apply Hst; exact Hin|].
    apply (status_ok_mono [f]); [|apply Hok; exact Hin].
    intros x [<-|[]]. apply Hincl. left. reflexivity. }
  destruct (flood_step F input_dir cloud_max nir_threshold min_water_pct f st) as [st' [e|]] eqn:Hs.
  - exact Hst'.
  - apply IH; [intros x Hx; apply Hincl; right; exact Hx | exact Hst'].
Qed.

Lemma select_flood_status_ok ev :
  In ev (st_out (fst (select_scenes_flood_aware F input_dir cloud_max nir_threshold min_water_pct))) ->
  status_ok F input_dir cloud_max nir_threshold min_water_pct (metadata_files F) ev.
Proof.
  apply flood_loop_out; [intros x Hx; exact Hx | intros _ []].
Qed.
End FloodLoop.

(** The decision, as the code takes it: the first test, then the second
    one when the first fails; without NaN, the first test fails exactly
    when the cloud cover is above [cloud_max]. *)
Lemma flood_decision_spec cloud_max min_water_pct c w :
  let d := flood_decision cloud_max min_water_pct c w in
  (fst d = true <-> py_le c cloud_max = true \/
                    (py_le c cloud_max = false /\ py_ge (PyFloat w) min_water_pct = true)) /\
  (fst d = false <-> py_le c cloud_max = false /\ py_ge (PyFloat w) min_water_pct = false) /\
  (py_isnan c = false -> py_isnan cloud_max = false -> py_isnan min_water_pct = false -> is_nan w = false ->
   (fst d = true <-> py_le c cloud_max = true \/
                     (py_gt c cloud_max = true /\ py_ge (PyFloat w) min_water_pct = true)) /\
   (fst d = false <-> py_gt c cloud_max = true /\ py_lt (PyFloat w) min_water_pct = true)).
Proof.
  unfold flood_decision. simpl.
  destruct (py_le c cloud_max) eqn:H1, (py_ge (PyFloat w) min_water_pct) eqn:H2; simpl;
    (split; [intuition congruence|]); (split; [intuition congruence|]);
    intros Hc Hm Hn Hw.
  - split; [tauto|]. split; [discriminate|]. intros [H3 _]. rewrite py_gt_le in H1 by exact H3. discriminate.
  - split; [tauto|]. split; [discriminate|]. intros [H3 _]. rewrite py_gt_le in H1 by exact H3. discriminate.
  - pose proof (py_le_gt _ _ Hc Hm H1) as H3. split; [tauto|].
    split; [discriminate|]. intros [_ H4]. rewrite py_lt_ge in H2 by exact H4. discriminate.
  - pose proof (py_le_gt _ _ Hc Hm H1) as H3. pose proof (py_ge_lt (PyFloat w) _ Hw Hn H2) as H4.
    split; [|tauto]. split; [discriminate|]. intros [H|[_ H]]; congruence.
Qed.

Lemma detect_unavailable_zero F tif udm nir :
  imagery_unavailable F tif udm -> snd (detect_water_extent F tif udm nir) = zero_info.
Proof.
  unfold imagery_unavailable, detect_water_extent, detect_try.
  intros H.
  destruct (fs_exists F tif) eqn:Et; [|reflexivity].
  destruct (fs_exists F udm) eqn:Eu; [|reflexivity].
  simpl.
  destruct (fs_gdal F tif) as [bands| |] eqn:Gt; try reflexivity.
  destruct (read_band bands 4); try reflexivity.
  destruct (fs_gdal F udm) as [ub| |] eqn:Gu; try reflexivity.
  exfalso. intuition discriminate.
Qed.

(** ** Lemmas on the stable sort *)

Section SortLemmas.
Context {A : Type} (before : A -> A -> bool).
Hypothesis before_total : forall x y, before x y = false -> before y x = true.

Lemma sort_insert_perm x l : Permutation (sort_insert before x l) (x :: l).
Proof.
  induction l as [|y r IH]; simpl; [reflexivity|].
  destruct (before x y); [reflexivity|].
  rewrite IH. apply perm_swap.
Qed.

Lemma sort_by_perm l : Permutation (sort_by before l) l.
Proof.
  induction l as [|x r IH]; simpl; [reflexivity|].
  rewrite sort_insert_perm. apply perm_skip, IH.
Qed.

Lemma sort_insert_hdrel a x l :
  HdRel (fun u v => before u v = true) a l -> before a x = true -> HdRel (fun u v => before u v = true) a (sort_insert before x l).
Proof.
  destruct l as [|y r]; simpl; intros Hh Hax; [constructor; exact Hax|].
  destruct (before x y); constructor; [exact Hax|]. inversion Hh; assumption.
Qed.

Lemma sort_insert_sorted x l : Sorted (fun u v => before u v = true) l -> Sorted (fun u v => before u v = true) (sort_insert before x l).
Proof.
  induction l as [|y r IH]; simpl; intros Hs; [constructor; constructor|].
  destruct (before x y) eqn:Hxy.
  - constructor; [exact Hs|]. constructor. exact Hxy.
  - apply Sorted_inv in Hs as [Hr Hh]. constructor; [apply IH, Hr|].
    apply sort_insert_hdrel; [exact Hh|]. apply before_total, Hxy.
Qed.

Lemma sort_by_sorted l : Sorted (fun u v => before u v = true) (sort_by before l).
Proof.
  induction l as [|x r IH]; simpl; [constructor|]. apply sort_insert_sorted, IH.
Qed.
End SortLemmas.

Lemma Sorted_weaken {A : Type} (R R' : A -> A -> Prop) (l : list A) :
  (forall x y, R x y -> R' x y) -> Sorted R l -> Sorted R' l.
Proof.
  intros Himp Hs. induction Hs as [|x l Hs IH Hh]; constructor; [exact IH|].
  destruct Hh; constructor. apply Himp. assumption.
Qed.

Lemma Qle_bool_total x y : Qle_bool x y = false -> Qle_bool y x = true.
Proof.
  intros H. apply Qle_bool_iff. apply Qlt_le_weak, Qnot_le_lt.
  intros H'. apply Qle_bool_iff in H'. congruence.
Qed.

Lemma sort_by_cloud_desc_sorted l :
  Sorted (fun x y => (cloud_cov y <= cloud_cov x)%Q) (sort_by_cloud_desc l).
Proof.
  apply (Sorted_weaken (fun x y => Qle_bool (cloud_cov y) (cloud_cov x) = true)).
  - intros x y H. apply Qle_bool_iff, H.
  - apply sort_by_sorted. intros x y. apply Qle_bool_total.
Qed.

Lemma sort_clusters_sorted (cs : cluster_map) :
  Sorted (fun x y => length (snd y) <= length (snd x)) (sort_clusters cs).
Proof.
  apply (Sorted_weaken (fun x y => Nat.leb (length (snd y)) (length (snd x)) = true)).
  - intros x y H. apply Nat.leb_le, H.
  - apply sort_by_sorted. intros x y H.
    apply Nat.leb_gt in H. apply Nat.leb_le. lia.
Qed.

(** ** Lemmas on the boundary filter and the clustering *)

Lemma filter_scenes_go_app {B : Type} (intersects : list (Q * Q) -> B -> bool) scenes acc boundary :
  filter_scenes_go intersects scenes acc boundary =
  (acc ++ List.filter (fun s => intersects (polygon s) boundary) scenes)%list.
Proof.
  revert acc. induction scenes as [|s r IH]; intros acc; simpl; [rewrite app_nil_r; reflexivity|].
  rewrite IH. destruct (intersects (polygon s) boundary); [|reflexivity].
  rewrite <- app_assoc. reflexivity.
Qed.

Lemma cluster_add_perm cid s (cl : cluster_map) :
  Permutation (concat (List.map snd (cluster_add cid s cl))) (concat (List.map snd cl) ++ [s])%list.
Proof.
  induction cl as [|[k l] r IH]; simpl; [reflexivity|].
  destruct (String.eqb k cid); simpl.
  - rewrite <- !app_assoc. apply Permutation_app_head. apply Permutation_app_comm.
  - rewrite <- app_assoc. apply Permutation_app_head, IH.
Qed.

Lemma cluster_add_keys cid s (cl : cluster_map) k :
  In k (List.map fst (cluster_add cid s cl)) -> k = cid \/ In k (List.map fst cl).
Proof.
  induction cl as [|[k' l] r IH]; simpl; [intros [<-|[]]; left; reflexivity|].
  destruct (String.eqb k' cid); simpl; [tauto|].
  intros [<-|H]; [tauto|]. apply IH in H. tauto.
Qed.

Lemma cluster_add_nodup cid s (cl : cluster_map) :
  List.NoDup (List.map fst cl) -> List.NoDup (List.map fst (cluster_add cid s cl)).
Proof.
  induction cl as [|[k l] r IH]; simpl; intros Hnd; [constructor; [intros []|constructor]|].
  destruct (String.eqb k cid) eqn:Hk; simpl; [exact Hnd|].
  apply List.NoDup_cons_iff in Hnd as [Hni Hnd]. constructor; [|apply IH, Hnd].
  intros Hin. apply cluster_add_keys in Hin as [->|Hin].
  - rewrite String.eqb_refl in Hk. discriminate.
  - contradiction.
Qed.

Lemma cluster_add_nonempty cid s (cl : cluster_map) :
  (forall c, In c cl -> snd c <> []) -> forall c, In c (cluster_add cid s cl) -> snd c <> [].
Proof.
  induction cl as [|[k l] r IH]; simpl; intros Hne c Hc.
  - destruct Hc as [<-|[]]. discriminate.
  - destruct (String.eqb k cid).
    + destruct Hc as [<-|Hc]; [simpl; destruct l; discriminate|]. apply Hne. right. exact Hc.
    + destruct Hc as [<-|Hc]; [apply Hne; left; reflexivity|].
      apply IH; [intros c' Hc'; apply Hne; right; exact Hc'|exact Hc].
Qed.

Lemma organize_perm pairs (cl : cluster_map) nc :
  Permutation (concat (List.map snd (organize pairs cl nc))) (concat (List.map snd cl) ++ List.map fst pairs)%list.
Proof.
  revert cl nc. induction pairs as [|[s label] r IH]; intros cl nc; simpl; [rewrite app_nil_r; reflexivity|].
  destruct (cluster_key label nc) as [cid nc'].
  rewrite IH, cluster_add_perm, <- app_assoc. reflexivity.
Qed.

Lemma organize_nodup pairs (cl : cluster_map) nc :
  List.NoDup (List.map fst cl) -> List.NoDup (List.map fst (organize pairs cl nc)).
Proof.
  revert cl nc. induction pairs as [|[s label] r IH]; intros cl nc Hnd; simpl; [exact Hnd|].
  destruct (cluster_key label nc) as [cid nc']. apply IH, cluster_add_nodup, Hnd.
Qed.

Lemma organize_nonempty pairs (cl : cluster_map) nc :
  (forall c, In c cl -> snd c <> []) -> forall c, In c (organize pairs cl nc) -> snd c <> [].
Proof.
  revert cl nc. induction pairs as [|[s label] r IH]; intros cl nc Hne; simpl; [exact Hne|].
  destruct (cluster_key label nc) as [cid nc']. apply IH, cluster_add_nonempty, Hne.
Qed.

Lemma map_fst_combine {A B : Type} (l1 : list A) (l2 : list B) :
  length l1 = length l2 -> List.map fst (combine l1 l2) = l1.
Proof.
  revert l2. induction l1 as [|x r IH]; intros [|y l2]; simpl; intros H; try discriminate; [reflexivity|].
  f_equal. apply IH. lia.
Qed.

Lemma concat_sorted_perm (cl : cluster_map) :
  Permutation (concat (List.map snd (List.map (fun kl => (fst kl, sort_by_cloud_desc (snd kl))) cl)))
              (concat (List.map snd cl)).
Proof.
  induction cl as [|[k l] r IH]; simpl; [reflexivity|].
  apply Permutation_app; [apply sort_by_perm|exact IH].
Qed.

(** ** Lemmas on the generated script *)

Lemma header_no_invocation otb data_dir output_dir aoi_name :
  List.filter is_invocation (script_header otb data_dir output_dir aoi_name) = [].
Proof. reflexivity. Qed.

Lemma footer_no_invocation : List.filter is_invocation script_footer = [].
Proof. reflexivity. Qed.

Lemma tif_lines_no_invocation ts : List.filter is_invocation (tif_lines ts) = [].
Proof.
  induction ts as [|t r IH]; [reflexivity|].
  destruct r as [|t' r']; [reflexivity|].
  change (tif_lines (t :: t' :: r')) with ((lit "    `" ++ t ++ dq ++ " \") :: tif_lines (t' :: r')).
  exact IH.
Qed.

Lemma cluster_lines_ok fmt cid (l : list scene) :
  l <> [] ->
  exists rest, cluster_lines fmt (cid, l) =
               inr (("# " ++ rest) :: invocation_line cid :: app (tif_lines (List.map tif_file l)) [""]).
Proof.
  destruct l as [|s r]; [intros H; exfalso; apply H; reflexivity|intros _].
  eexists. reflexivity.
Qed.

Lemma clusters_lines_ok fmt (cs : cluster_map) :
  (forall c, In c cs -> snd c <> []) ->
  exists ls, clusters_lines fmt cs = inr ls /\
             List.filter is_invocation ls = List.map (fun c => invocation_line (fst c)) cs /\
             forall cid l, In (cid, l) cs ->
               exists pre post, ls = app pre (invocation_line cid :: app (tif_lines (List.map tif_file l)) post).
Proof.
  induction cs as [|[cid l] r IH]; intros Hne.
  - exists []. split; [reflexivity|]. split; [reflexivity|]. intros ? ? [].
  - destruct IH as [rs [Hr [Hf Hin]]]; [intros c Hc; apply Hne; right; exact Hc|].
    destruct (cluster_lines_ok fmt cid l) as [rest Hc]; [apply (Hne (cid, l)); left; reflexivity|].
    exists (app (("# " ++ rest) :: invocation_line cid :: app (tif_lines (List.map tif_file l)) [""]) rs).
    cbn [clusters_lines]. rewrite Hc, Hr. split; [reflexivity|]. split.
    + rewrite List.filter_app. simpl. rewrite List.filter_app, tif_lines_no_invocation, Hf. reflexivity.
    + intros cid' l' [Heq|Hin'].
      * injection Heq as <- <-. exists [("# " ++ rest)].
        exists (app [""] rs). simpl. rewrite <- app_assoc. reflexivity.
      * destruct (Hin cid' l' Hin') as [pre [post ->]].
        exists (app (("# " ++ rest) :: invocation_line cid :: app (tif_lines (List.map tif_file l)) [""]) pre).
        exists post. rewrite <- app_assoc. reflexivity.
Qed.

(** ** Lemmas on [select_scenes_to_shapefile] *)

Lemma string_leb_trans a b c :
  String.leb a b = true -> String.leb b c = true -> String.leb a c = true.
Proof.
  intros Hab Hbc. pose proof String.le_po as [[_ Htr] _].
  unfold String.le in Htr. apply Is_true_true.
  apply (Htr a b c); apply Is_true_true; assumption.
Qed.

Lemma sorted_names_strongly_sorted l :
  StronglySorted (fun x y => String.leb x y = true) (sorted_names l).
Proof.
  apply Sorted_StronglySorted.
  - intros x y z. apply string_leb_trans.
  - apply sort_by_sorted. intros x y H.
    destruct (String.leb_total x y) as [H'|H']; [congruence|exact H'].
Qed.

Lemma StronglySorted_filter {A : Type} (R : A -> A -> Prop) (p : A -> bool) l :
  StronglySorted R l -> StronglySorted R (List.filter p l).
Proof.
  induction 1 as [|x l Hs IH Hall]; simpl; [constructor|].
  destruct (p x); [|exact IH]. constructor; [exact IH|].
  apply List.Forall_forall. intros y Hy. apply filter_In in Hy as [Hy _].
  rewrite List.Forall_forall in Hall. apply Hall, Hy.
Qed.

Lemma StronglySorted_app_l {A : Type} (R : A -> A -> Prop) l1 l2 :
  StronglySorted R (l1 ++ l2)%list -> StronglySorted R l1.
Proof.
  induction l1 as [|x r IH]; simpl; intros H; [constructor|].
  apply StronglySorted_inv in H as [H Hall]. constructor; [apply IH, H|].
  apply List.Forall_forall. intros y Hy. rewrite List.Forall_forall in Hall. apply Hall, in_or_app. left. exact Hy.
Qed.

Section ShpTrace.
Variables (F : fs) (input_dir : string) (threshold : float).

Lemma shp_step_skip f st :
  endswith f "_metadata.json" = false -> shp_step F input_dir threshold f st = (st, None).
Proof. intros H. unfold shp_step. rewrite H. reflexivity. Qed.

Lemma shp_step_tested f st :
  endswith f "_metadata.json" = true ->
  (metadata_cloud_cover F input_dir f = None /\
   ts_tested (fst (shp_step F input_dir threshold f st)) = ts_tested st /\
   snd (shp_step F input_dir threshold f st) <> None) \/
  (exists c, metadata_cloud_cover F input_dir f = Some c /\
   ts_tested (fst (shp_step F input_dir threshold f st)) =
     app (ts_tested st) [(f, py_le c (PyFloat threshold))]).
Proof.
  intros Hf. unfold shp_step, metadata_cloud_cover. rewrite Hf. simpl negb. cbv iota.
  destruct (fs_json F (path_join input_dir f)) as [data|];
    [|left; split; [reflexivity|split; [reflexivity|discriminate]]].
  destruct data as [| | | | | |dkv];
    try (left; split; [reflexivity|split; [reflexivity|discriminate]]).
  destruct (obj_get dkv "properties" (JObj dkv)) as [| | | | | |pkv];
    try (left; split; [reflexivity|split; [reflexivity|discriminate]]).
  destruct (py_number (obj_get pkv "cloud_cover" (JFloat 1))) as [e|c];
    [left; split; [reflexivity|split; [reflexivity|discriminate]]|].
  right. exists c. split; [reflexivity|].
  destruct (py_le c (PyFloat threshold)); [|reflexivity]. simpl.
  destruct (stac_ring _ _ _) as [e|[ring|]]; reflexivity.
Qed.

(** The loop invariant: the tested files are the next metadata files of
    the listing, in order, each tested against the threshold; a run that
    raises no exception has tested all of them. *)
Lemma shp_loop_tested files st :
  let (st', e) := shp_loop F input_dir threshold files st in
  exists tested suffix,
    ts_tested st' = app (ts_tested st) tested /\
    List.filter (fun f => endswith f "_metadata.json") files = app (List.map fst tested) suffix /\
    (forall x, In x tested -> test_ok F input_dir threshold x) /\
    (e = None -> suffix = []).
Proof.
  revert st. induction files as [|f r IH]; intros st; simpl.
  - exists [], []. split; [rewrite app_nil_r; reflexivity|]. simpl. tauto.
  - destruct (endswith f "_metadata.json") eqn:Hf.
    + destruct (shp_step F input_dir threshold f st) as [st1 e1] eqn:Hs.
      pose proof (shp_step_tested f st Hf) as Hc. rewrite Hs in Hc. simpl in Hc.
      destruct Hc as [[Hn [Ht He]]|[c [Hc Ht]]].
      * destruct e1 as [e1|]; [|congruence].
        exists [], (f :: List.filter (fun f0 => endswith f0 "_metadata.json") r).
        split; [rewrite Ht, app_nil_r; reflexivity|]. split; [reflexivity|].
        split; [intros _ []|discriminate].
      * assert (Hok : test_ok F input_dir threshold (f, py_le c (PyFloat threshold))).
        { exists c. split; [exact Hc|reflexivity]. }
        destruct e1 as [e1|].
        -- exists [(f, py_le c (PyFloat threshold))].
           exists (List.filter (fun f0 => endswith f0 "_metadata.json") r).
           split; [exact Ht|]. split; [reflexivity|].
           split; [intros x [<-|[]]; exact Hok|discriminate].
        -- specialize (IH st1). destruct (shp_loop F input_dir threshold r st1) as [st2 e2].
           destruct IH as [tested [suffix [Ht2 [Hfl [Hall Hsuf]]]]].
           exists ((f, py_le c (PyFloat threshold)) :: tested), suffix.
           split; [rewrite Ht2, Ht, <- app_assoc; reflexivity|].
           split; [simpl; rewrite Hfl; reflexivity|].
           split; [intros x [<-|Hx]; [exact Hok|apply Hall, Hx]|exact Hsuf].
    + rewrite (shp_step_skip f st Hf). apply IH.
Qed.
End ShpTrace.

Lemma cluster_scenes_clusters dbscan scenes eps_factor min_samples c :
  In c (cluster_scenes dbscan scenes eps_factor min_samples) ->
  snd c <> [] /\ Sorted (fun x y => (cloud_cov y <= cloud_cov x)%Q) (snd c).
Proof.
  destruct scenes as [|s r]; [intros []|].
  unfold cluster_scenes. cbv zeta. intros Hin.
  apply in_map_iff in Hin as [kl [<- Hkl]]. simpl. split; [|apply sort_by_cloud_desc_sorted].
  intros Hnil. pose proof (sort_by_perm (fun x y => Qle_bool (cloud_cov y) (cloud_cov x)) (snd kl)) as Hp.
  unfold sort_by_cloud_desc in Hnil. rewrite Hnil in Hp. apply Permutation_nil in Hp.
  apply (organize_nonempty _ [] 0) in Hkl; [contradiction|intros ? []].
Qed.

Lemma flood_decision_eq cloud_max min_water_pct c1 c2 w1 w2 :
  (c1 = c2 \/ py_cmp c1 c2 = Some Eq) ->
  (w1 = w2 \/ py_cmp (PyFloat w1) (PyFloat w2) = Some Eq) ->
  flood_decision cloud_max min_water_pct c1 w1 = flood_decision cloud_max min_water_pct c2 w2.
Proof.
  intros Hc Hw. unfold flood_decision, py_le, py_ge.
  assert (E1 : py_cmp c1 cloud_max = py_cmp c2 cloud_max).
  { destruct Hc as [->|Hc]; [reflexivity|apply py_cmp_eq_l; exact Hc]. }
  assert (E2 : py_cmp (PyFloat w1) min_water_pct = py_cmp (PyFloat w2) min_water_pct).
  { destruct Hw as [->|Hw]; [reflexivity|apply py_cmp_eq_l; exact Hw]. }
  rewrite E1, E2. reflexivity.
Qed.

(** A cluster list with an empty cluster makes the script lines raise
    [ValueError] ([max] of an empty sequence), whatever the other
    clusters are: no other cluster raises anything else. *)
Lemma cluster_lines_error fmt c e : cluster_lines fmt c = inl e -> e = ValueError.
Proof.
  destruct c as [cid [|s r]]; simpl; [intros H; injection H as <-; reflexivity|].
  discriminate.
Qed.

Lemma clusters_lines_empty fmt (cs : cluster_map) cid :
  In (cid, []) cs -> clusters_lines fmt cs = inl ValueError.
Proof.
  induction cs as [|c r IH]; [intros []|]. intros Hin. simpl.
  destruct (cluster_lines fmt c) as [e|ls] eqn:Hc.
  - rewrite (cluster_lines_error fmt c e Hc). reflexivity.
  - destruct Hin as [Heq|Hin]; [subst c; simpl in Hc; discriminate|].
    rewrite (IH Hin). reflexivity.
Qed.

Lemma mosaic_script_lines_empty fmt clusters data_dir aoi_name otb_path cid :
  In (cid, []) clusters -> mosaic_script_lines fmt clusters data_dir aoi_name otb_path = inl ValueError.
Proof.
  intros Hin. unfold mosaic_script_lines.
  rewrite (clusters_lines_empty fmt (sort_clusters clusters) cid); [reflexivity|].
  apply (Permutation_in _ (Permutation_sym (sort_by_perm _ clusters)) Hin).
Qed.

(** Shape of the generated script for a cluster map without empty
    clusters: header, one block per cluster, footer. *)
Lemma mosaic_script_structure (format_0f : Q -> string) (clusters : cluster_map)
        data_dir aoi_name (otb_path : option string) :
  (forall c, In c clusters -> snd c <> []) ->
  exists lines,
    mosaic_script_lines format_0f clusters data_dir aoi_name otb_path = inr lines /\
    In ("OTB_MOSAIC=" ++ dq ++ match otb_path with Some p => p | None => default_otb_path end ++ dq) lines /\
    List.filter is_invocation lines = List.map (fun c => invocation_line (fst c)) (sort_clusters clusters) /\
    Permutation (sort_clusters clusters) clusters /\
    Sorted (fun x y => length (snd y) <= length (snd x)) (sort_clusters clusters) /\
    (forall cid l, In (cid, l) clusters ->
       exists pre post, lines = app pre (invocation_line cid :: app (tif_lines (List.map tif_file l)) post)).
Proof.
  intros Hne.
  assert (Hp : Permutation (sort_clusters clusters) clusters) by apply sort_by_perm.
  destruct (clusters_lines_ok format_0f (sort_clusters clusters)) as [body [Hb [Hf Hin]]].
  { intros c Hc. apply Hne. apply (Permutation_in _ Hp Hc). }
  set (otb := match otb_path with Some p => p | None => default_otb_path end).
  set (output_dir := path_join data_dir ("mosaic_" ++ aoi_name)).
  exists (app (script_header otb data_dir output_dir aoi_name) (app body script_footer)).
  assert (Hl : mosaic_script_lines format_0f clusters data_dir aoi_name otb_path =
               inr (app (script_header otb data_dir output_dir aoi_name) (app body script_footer))).
  { unfold mosaic_script_lines. rewrite Hb. reflexivity. }
  split; [exact Hl|].
  split; [apply in_or_app; left; simpl; do 7 right; left; reflexivity|].
  split.
  { rewrite !List.filter_app, header_no_invocation, footer_no_invocation, Hf, app_nil_r. reflexivity. }
  split; [exact Hp|]. split; [apply sort_clusters_sorted|].
  intros cid l Hcl. destruct (Hin cid l) as [pre [post Hpre]].
  { apply (Permutation_in _ (Permutation_sym Hp) Hcl). }
  exists (app (script_header otb data_dir output_dir aoi_name) pre), (app post script_footer).
  rewrite Hpre, <- !app_assoc. simpl. rewrite <- !app_assoc. reflexivity.
Qed.

(** * The claims *)

(** C1, as stated, fails: with [cloud_max] a NaN (argparse's [float]
    accepts ["nan"]) a scene whose cloud cover is neither at most nor
    above [cloud_max] is accepted, for its water. *)
Lemma flood_aware_acceptance_nan :
  In (SceneStatus "a" true (PyFloat 90) 50 100 "high_cloud_water")
     (st_out (fst (select_scenes_flood_aware demo_fs demo_dir (PyFloat nan) 1000 (PyInt 1)))) /\
  py_le (PyFloat 90) (PyFloat nan) = false /\ py_gt (PyFloat 90) (PyFloat nan) = false.
Proof. vm_compute. split; [left; reflexivity|split; reflexivity]. Qed.

(** C1 (amended): in [select_scenes_flood_aware], every processed scene
    (one printed status line per scene) is accepted exactly when its
    cloud cover is at most [cloud_max], or that test is false and its
    detected water is at least [min_water_pct]; it is rejected exactly
    when both tests are false. Without NaN among the four values, a
    false first test means a cloud cover above [cloud_max], and the
    claim's wording holds. *)
Theorem flood_aware_acceptance F input_dir cloud_max nir_threshold min_water_pct b sel c w cl r :
  In (SceneStatus b sel c w cl r)
     (st_out (fst (select_scenes_flood_aware F input_dir cloud_max nir_threshold min_water_pct))) ->
  (sel = true <-> py_le c cloud_max = true \/
                  (py_le c cloud_max = false /\ py_ge (PyFloat w) min_water_pct = true)) /\
  (sel = false <-> py_le c cloud_max = false /\ py_ge (PyFloat w) min_water_pct = false) /\
  (py_isnan c = false -> py_isnan cloud_max = false -> py_isnan min_water_pct = false -> is_nan w = false ->
   (sel = true <-> py_le c cloud_max = true \/
                   (py_gt c cloud_max = true /\ py_ge (PyFloat w) min_water_pct = true)) /\
   (sel = false <-> py_gt c cloud_max = true /\ py_lt (PyFloat w) min_water_pct = true)).
Proof.
  intros Hin. apply select_flood_status_ok in Hin. destruct Hin as [Hd _].
  pose proof (flood_decision_spec cloud_max min_water_pct c w) as H.
  rewrite <- Hd in H. exact H.
Qed.

Lemma flood_aware_acceptance_witness :
  In (SceneStatus "a" true (PyFloat 90) 50 100 "high_cloud_water")
     (st_out (fst (select_scenes_flood_aware demo_fs demo_dir (PyInt 80) 1000 (PyFloat 1)))) /\
  (true = true <-> py_le (PyFloat 90) (PyInt 80) = true \/
                   (py_le (PyFloat 90) (PyInt 80) = false /\ py_ge (PyFloat 50) (PyFloat 1) = true)).
Proof.
  assert (Hin : In (SceneStatus "a" true (PyFloat 90) 50 100 "high_cloud_water")
                   (st_out (fst (select_scenes_flood_aware demo_fs demo_dir (PyInt 80) 1000 (PyFloat 1)))))
    by (vm_compute; left; reflexivity).
  split; [exact Hin|].
  exact (proj1 (flood_aware_acceptance demo_fs demo_dir (PyInt 80) 1000 (PyFloat 1) "a" true
                  (PyFloat 90) 50 100 "high_cloud_water" Hin)).
Defined.

(** C2: [filter_scenes_by_boundary] returns exactly the input scenes whose
    footprint polygon intersects the boundary, unchanged and in input
    order. *)
Theorem filter_scenes_by_boundary_spec {B : Type} (intersects : list (Q * Q) -> B -> bool)
        (scenes : list scene) (boundary : B) :
  filter_scenes_by_boundary intersects scenes boundary =
  List.filter (fun s => intersects (polygon s) boundary) scenes.
Proof.
  unfold filter_scenes_by_boundary. rewrite filter_scenes_go_app. reflexivity.
Qed.

(** C3: given DBSCAN's contract (one label per point), the clusters of
    [cluster_scenes] partition the input: concatenated they are a
    permutation of the scenes (each scene in exactly one cluster, no
    other scene), and the cluster keys are distinct. *)
Theorem cluster_scenes_partition (dbscan : Q -> Z -> string -> list (Q * Q) -> list Z)
        (Hlen : forall eps ms metric pts, length (dbscan eps ms metric pts) = length pts)
        (scenes : list scene) eps_factor min_samples :
  Permutation (concat (List.map snd (cluster_scenes dbscan scenes eps_factor min_samples))) scenes /\
  List.NoDup (List.map fst (cluster_scenes dbscan scenes eps_factor min_samples)).
Proof.
  destruct scenes as [|s r]; [split; constructor|].
  unfold cluster_scenes. cbv zeta. split.
  - rewrite concat_sorted_perm, organize_perm, map_fst_combine; [reflexivity|].
    rewrite Hlen, length_map. reflexivity.
  - rewrite map_map. apply (organize_nodup _ [] 0). constructor.
Qed.

Lemma cluster_scenes_partition_witness :
  Permutation (concat (List.map snd (cluster_scenes demo_dbscan demo_scenes (3 # 2) 2))) demo_scenes /\
  List.NoDup (List.map fst (cluster_scenes demo_dbscan demo_scenes (3 # 2) 2)).
Proof.
  apply (cluster_scenes_partition demo_dbscan).
  intros eps ms metric pts. unfold demo_dbscan. apply length_map.
Defined.

(** C4: [cluster_scenes] on a non-empty scene list calls DBSCAN once, with
    [eps = eps_factor * average scene size] (the mean of the mean
    bounding-box width and the mean bounding-box height), [min_samples],
    the euclidean metric and the scene centroids: its result depends on
    the clustering routine only through that call. *)
Theorem cluster_scenes_eps (d1 d2 : Q -> Z -> string -> list (Q * Q) -> list Z)
        (scenes : list scene) eps_factor min_samples :
  scenes <> [] ->
  d1 (eps_factor * spec_avg_scene_size scenes)%Q min_samples "euclidean" (List.map centroid scenes) =
  d2 (eps_factor * spec_avg_scene_size scenes)%Q min_samples "euclidean" (List.map centroid scenes) ->
  cluster_scenes d1 scenes eps_factor min_samples = cluster_scenes d2 scenes eps_factor min_samples.
Proof.
  destruct scenes as [|s r]; [intros H; contradiction H; reflexivity|intros _].
  unfold cluster_scenes, spec_avg_scene_size. cbv zeta. intros H. rewrite H. reflexivity.
Qed.

Lemma cluster_scenes_eps_witness :
  cluster_scenes demo_dbscan demo_scenes (3 # 2) 2 = cluster_scenes demo_dbscan_at_eps demo_scenes (3 # 2) 2.
Proof.
  apply cluster_scenes_eps; [discriminate|]. vm_compute. reflexivity.
Defined.

(** C5, as stated, fails: a non-empty cluster map with an empty cluster
    makes [max(...)] raise [ValueError], and no script is emitted; nor is
    one when writing the file raises. *)
Lemma generate_mosaic_script_empty_cluster :
  [("cluster_1", @nil scene)] <> [] /\
  generate_mosaic_script demo_format (fun _ _ => None) (fun _ => None) [("cluster_1", @nil scene)]
    "data" "mosaic.sh" "aoi" None = WRaise None ValueError /\
  generate_mosaic_script demo_format (fun _ _ => Some OSError) (fun _ => None)
    (cluster_scenes demo_dbscan demo_scenes (3 # 2) 2) "data" "mosaic.sh" "aoi" None = WRaise None OSError.
Proof. split; [discriminate|split; vm_compute; reflexivity]. Qed.

(** C5 (amended): for every cluster map whose clusters are all non-empty
    (as [cluster_scenes] returns them), [generate_mosaic_script] builds
    a line list that assigns the mosaicking binary path to [OTB_MOSAIC],
    whose [mosaic_cluster] invocations are exactly one per cluster, in
    non-increasing order of cluster size, each followed by the cluster's
    [tif_file] names as its argument lines; it writes their text to
    [output_script] and makes it executable, unless the write or the
    [chmod] raises, and then the exception propagates. Every cluster map
    with an empty cluster makes it raise [ValueError] before anything is
    written. *)
Theorem generate_mosaic_script_structure (format_0f : Q -> string)
        (write_text : string -> string -> option exn) (chmod : string -> option exn)
        (clusters : cluster_map) data_dir output_script aoi_name (otb_path : option string) :
  ((forall c, In c clusters -> snd c <> []) ->
   exists lines,
     mosaic_script_lines format_0f clusters data_dir aoi_name otb_path = inr lines /\
     generate_mosaic_script format_0f write_text chmod clusters data_dir output_script aoi_name otb_path =
       match write_text output_script (join_lines lines) with
       | Some e => WRaise None e
       | None =>
           match chmod output_script with
           | Some e => WRaise (Some (output_script, join_lines lines)) e
           | None => WDone output_script (join_lines lines) (sort_clusters clusters)
           end
       end /\
     In ("OTB_MOSAIC=" ++ dq ++ match otb_path with Some p => p | None => default_otb_path end ++ dq) lines /\
     List.filter is_invocation lines = List.map (fun c => invocation_line (fst c)) (sort_clusters clusters) /\
     Permutation (sort_clusters clusters) clusters /\
     Sorted (fun x y => length (snd y) <= length (snd x)) (sort_clusters clusters) /\
     (forall cid l, In (cid, l) clusters ->
        exists pre post, lines = app pre (invocation_line cid :: app (tif_lines (List.map tif_file l)) post))) /\
  (forall cid, In (cid, []) clusters ->
     generate_mosaic_script format_0f write_text chmod clusters data_dir output_script aoi_name otb_path =
       WRaise None ValueError).
Proof.
  split.
  - intros Hne.
    destruct (mosaic_script_structure format_0f clusters data_dir aoi_name otb_path Hne)
      as [lines [Hl Hrest]].
    exists lines. split; [exact Hl|]. split; [|exact Hrest].
    unfold generate_mosaic_script. rewrite Hl. reflexivity.
  - intros cid Hin. unfold generate_mosaic_script.
    rewrite (mosaic_script_lines_empty format_0f clusters data_dir aoi_name otb_path cid Hin).
    reflexivity.
Qed.

Lemma generate_mosaic_script_structure_witness :
  (exists lines,
    mosaic_script_lines demo_format (cluster_scenes demo_dbscan demo_scenes (3 # 2) 2) "data" "aoi" None
      = inr lines /\
    generate_mosaic_script demo_format (fun _ _ => None) (fun _ => None)
      (cluster_scenes demo_dbscan demo_scenes (3 # 2) 2) "data" "mosaic.sh" "aoi" None =
      WDone "mosaic.sh" (join_lines lines) (sort_clusters (cluster_scenes demo_dbscan demo_scenes (3 # 2) 2)) /\
    In ("OTB_MOSAIC=" ++ dq ++ default_otb_path ++ dq) lines /\
    List.filter is_invocation lines =
      List.map (fun c => invocation_line (fst c)) (sort_clusters (cluster_scenes demo_dbscan demo_scenes (3 # 2) 2)) /\
    Permutation (sort_clusters (cluster_scenes demo_dbscan demo_scenes (3 # 2) 2))
                (cluster_scenes demo_dbscan demo_scenes (3 # 2) 2) /\
    Sorted (fun x y => length (snd y) <= length (snd x)) (sort_clusters (cluster_scenes demo_dbscan demo_scenes (3 # 2) 2)) /\
    (forall cid l, In (cid, l) (cluster_scenes demo_dbscan demo_scenes (3 # 2) 2) ->
       exists pre post, lines = app pre (invocation_line cid :: app (tif_lines (List.map tif_file l)) post))) /\
  generate_mosaic_script demo_format (fun _ _ => None) (fun _ => None)
    (("cluster_1", [mk_scene "s1" 10 0]) :: [("cluster_2", @nil scene)]) "data" "mosaic.sh" "aoi" None =
    WRaise None ValueError.
Proof.
  split.
  - apply (proj1 (generate_mosaic_script_structure demo_format (fun _ _ => None) (fun _ => None)
                    (cluster_scenes demo_dbscan demo_scenes (3 # 2) 2) "data" "mosaic.sh" "aoi" None)).
    intros c Hc. vm_compute in Hc.
    destruct Hc as [<-|[<-|[]]]; discriminate.
  - apply (proj2 (generate_mosaic_script_structure demo_format (fun _ _ => None) (fun _ => None)
                    (("cluster_1", [mk_scene "s1" 10 0]) :: [("cluster_2", @nil scene)]) "data" "mosaic.sh"
                    "aoi" None) "cluster_2").
    right. left. reflexivity.
Defined.

(** C6: [select_scenes_to_shapefile] is a single pass over the listing:
    the files whose [cloud_cover] it tests are the [*_metadata.json] files
    in sorted filename order, each tested at most once (once each when
    the listing has no duplicates, as [os.listdir] guarantees), all of
    them when the run completes; a file passes exactly when its
    [cloud_cover] (a decimal, [1.0] when absent) is at most
    [cloud_threshold = cloud_max / 100.0], compared as Python compares
    numbers. *)
Theorem select_scenes_to_shapefile_single_pass F input_dir cloud_max :
  let (st, e) := select_scenes_to_shapefile F input_dir cloud_max in
  (exists suffix,
     List.filter (fun f => endswith f "_metadata.json") (sorted_names (fs_listdir F)) =
       app (List.map fst (ts_tested st)) suffix /\
     (e = None -> suffix = [])) /\
  StronglySorted (fun x y => String.leb x y = true) (List.map fst (ts_tested st)) /\
  (List.NoDup (fs_listdir F) -> List.NoDup (List.map fst (ts_tested st))) /\
  (forall f b, In (f, b) (ts_tested st) ->
     exists c t, cloud_threshold cloud_max = inr t /\ metadata_cloud_cover F input_dir f = Some c /\
                 (b = true <-> py_le c (PyFloat t) = true)).
Proof.
  unfold select_scenes_to_shapefile.
  destruct (cloud_threshold cloud_max) as [e0|t] eqn:Ht0.
  { simpl. split.
    - exists (List.filter (fun f => endswith f "_metadata.json") (sorted_names (fs_listdir F))).
      split; [reflexivity|discriminate].
    - split; [constructor|]. split; [intros _; constructor|]. intros f b []. }
  pose proof (shp_loop_tested F input_dir t (sorted_names (fs_listdir F)) shp_state0) as H.
  destruct (shp_loop F input_dir t (sorted_names (fs_listdir F)) shp_state0) as [st e].
  destruct H as [tested [suffix [Ht [Hfl [Hall Hsuf]]]]].
  simpl in Ht. rewrite Ht.
  split; [exists suffix; split; [exact Hfl|exact Hsuf]|].
  split.
  { apply (StronglySorted_app_l _ _ suffix). rewrite <- Hfl.
    apply StronglySorted_filter, sorted_names_strongly_sorted. }
  split.
  { intros Hnd. apply (List.NoDup_app_remove_r _ suffix). rewrite <- Hfl.
    apply List.NoDup_filter. apply (Permutation_NoDup (Permutation_sym (sort_by_perm _ _)) Hnd). }
  intros f b Hfb. destruct (Hall (f, b) Hfb) as [c [Hc Hb]]. simpl in Hc, Hb.
  exists c, t. split; [reflexivity|]. split; [exact Hc|]. rewrite Hb. reflexivity.
Qed.

Lemma select_scenes_to_shapefile_single_pass_witness :
  List.NoDup (List.map fst (ts_tested (fst (select_scenes_to_shapefile demo_fs demo_dir (PyInt 50))))) /\
  List.map fst (ts_tested (fst (select_scenes_to_shapefile demo_fs demo_dir (PyInt 50)))) =
    ["a_metadata.json"; "b_metadata.json"; "c_metadata.json"].
Proof.
  split; [|vm_compute; reflexivity].
  generalize (select_scenes_to_shapefile_single_pass demo_fs demo_dir (PyInt 50)).
  destruct (select_scenes_to_shapefile demo_fs demo_dir (PyInt 50)) as [st e]. simpl.
  intros [_ [_ [Hnd _]]]. apply Hnd.
  vm_compute.
  repeat (apply List.NoDup_cons; [simpl; intuition discriminate|]).
  apply List.NoDup_nil.
Defined.

(** C7: the filtering is deterministic: equal inputs give equal filtered
    lists, and two status lines of [select_scenes_flood_aware] runs with
    the same thresholds and equal cloud-cover and water values (the same
    value, or numbers Python finds equal) carry the same decision and
    selection reason. *)
Theorem filtering_deterministic :
  (forall (B : Type) (intersects : list (Q * Q) -> B -> bool) scenes1 scenes2 (b1 b2 : B),
     scenes1 = scenes2 -> b1 = b2 ->
     filter_scenes_by_boundary intersects scenes1 b1 = filter_scenes_by_boundary intersects scenes2 b2) /\
  (forall F1 F2 dir1 dir2 cloud_max nir1 nir2 min_water_pct b1 b2 s1 s2 c1 c2 w1 w2 cl1 cl2 r1 r2,
     In (SceneStatus b1 s1 c1 w1 cl1 r1)
        (st_out (fst (select_scenes_flood_aware F1 dir1 cloud_max nir1 min_water_pct))) ->
     In (SceneStatus b2 s2 c2 w2 cl2 r2)
        (st_out (fst (select_scenes_flood_aware F2 dir2 cloud_max nir2 min_water_pct))) ->
     (c1 = c2 \/ py_cmp c1 c2 = Some Eq) ->
     (w1 = w2 \/ py_cmp (PyFloat w1) (PyFloat w2) = Some Eq) ->
     s1 = s2 /\ r1 = r2).
Proof.
  split.
  - intros B intersects scenes1 scenes2 b1 b2 -> ->. reflexivity.
  - intros F1 F2 dir1 dir2 cloud_max nir1 nir2 min_water_pct b1 b2 s1 s2 c1 c2 w1 w2 cl1 cl2 r1 r2
           H1 H2 Hc Hw.
    apply select_flood_status_ok in H1 as [Hd1 _]. apply select_flood_status_ok in H2 as [Hd2 _].
    rewrite (flood_decision_eq cloud_max min_water_pct c1 c2 w1 w2 Hc Hw), <- Hd2 in Hd1.
    injection Hd1 as -> ->. split; reflexivity.
Qed.

Lemma filtering_deterministic_witness :
  filter_scenes_by_boundary demo_intersects demo_scenes 1%Q = filter_scenes_by_boundary demo_intersects demo_scenes 1%Q /\
  (true = true /\ "high_cloud_water" = "high_cloud_water").
Proof.
  split.
  - apply (proj1 filtering_deterministic); reflexivity.
  - apply (proj2 filtering_deterministic demo_fs demo_fs demo_dir demo_dir (PyInt 80) 1000%Z 1000%Z (PyInt 1)
             "a" "a" true true (PyFloat 90) (PyFloat 90) 50%float 50%float 100%float 100%float
             "high_cloud_water" "high_cloud_water");
      [vm_compute; left; reflexivity | vm_compute; left; reflexivity | left; reflexivity | left; reflexivity].
Defined.

(** C8: [detect_water_extent] is a total function (every exception of its
    [try] block is caught): when the scene TIFF or the UDM2 file is
    missing or cannot be opened it returns the zeroed default result; so
    a scene whose cloud cover is above [cloud_max] and whose imagery is
    unavailable is rejected when [min_water_pct > 0]. *)
Theorem detect_water_extent_fallback F input_dir cloud_max nir_threshold min_water_pct :
  (forall tif udm, imagery_unavailable F tif udm ->
     snd (detect_water_extent F tif udm nir_threshold) = zero_info) /\
  (forall b sel c w cl r,
     In (SceneStatus b sel c w cl r)
        (st_out (fst (select_scenes_flood_aware F input_dir cloud_max nir_threshold min_water_pct))) ->
     imagery_unavailable F (path_join input_dir (b ++ tif_suffix)) (path_join input_dir (b ++ udm2_suffix)) ->
     py_gt c cloud_max = true -> py_gt min_water_pct (PyInt 0) = true ->
     sel = false /\ r = "high_cloud_no_water" /\ w = 0%float).
Proof.
  split; [intros tif udm; apply detect_unavailable_zero|].
  intros b sel c w cl r Hin Hu Hc Hm.
  apply select_flood_status_ok in Hin as [Hd [f [_ [_ [Hw _]]]]].
  unfold detect_of in Hw. rewrite detect_unavailable_zero in Hw by exact Hu. simpl in Hw. subst w.
  unfold flood_decision in Hd.
  rewrite (py_gt_le _ _ Hc), (py_ge_zero_pos _ Hm) in Hd.
  injection Hd as -> ->. split; [reflexivity|split; reflexivity].
Qed.

Lemma detect_water_extent_fallback_witness :
  snd (detect_water_extent demo_fs ("d/b" ++ tif_suffix) ("d/b" ++ udm2_suffix) 1000) = zero_info /\
  (false = false /\ "high_cloud_no_water" = "high_cloud_no_water" /\ 0%float = 0%float).
Proof.
  split.
  - apply (proj1 (detect_water_extent_fallback demo_fs demo_dir (PyInt 80) 1000%Z (PyInt 1))).
    left. vm_compute. reflexivity.
  - apply (proj2 (detect_water_extent_fallback demo_fs demo_dir (PyInt 80) 1000%Z (PyInt 1)) "c" false
             (PyFloat (0.95 * 100)%float) 0%float 0%float "high_cloud_no_water").
    + vm_compute. right. right. right. right. left. reflexivity.
    + left. vm_compute. reflexivity.
    + vm_compute. reflexivity.
    + vm_compute. reflexivity.
Defined.


(** C10: [cluster_scenes] returns the empty cluster map on the empty scene
    list, whatever [eps_factor] and [min_samples] (DBSCAN is not called). *)
Theorem cluster_scenes_empty (dbscan : Q -> Z -> string -> list (Q * Q) -> list Z) eps_factor min_samples :
  cluster_scenes dbscan [] eps_factor min_samples = [].
Proof. reflexivity. Qed.

(** * Further properties of the scripts *)

(** ** Stability of the sorts *)

Section SortStable.
Context {A : Type} (before : A -> A -> bool) (p : A -> bool).
Hypothesis p_before : forall x y, p x = true -> p y = true -> before x y = true.

Lemma sort_insert_filter x l :
  List.filter p (sort_insert before x l) = List.filter p (x :: l).
Proof.
  induction l as [|y r IH]; [reflexivity|]. simpl.
  destruct (before x y) eqn:Hxy; [reflexivity|]. simpl. rewrite IH. simpl.
  destruct (p y) eqn:Hy, (p x) eqn:Hx; try reflexivity.
  rewrite (p_before x y Hx Hy) in Hxy. discriminate.
Qed.

Lemma sort_by_filter l : List.filter p (sort_by before l) = List.filter p l.
Proof.
  induction l as [|x r IH]; [reflexivity|]. simpl.
  rewrite sort_insert_filter. simpl. rewrite IH. reflexivity.
Qed.
End SortStable.

(** ** The cluster map built by [cluster_scenes] *)

Lemma cm_lookup_cluster_add k cid s (cl : cluster_map) :
  cm_lookup k (cluster_add cid s cl) =
  if String.eqb cid k then Some (app (match cm_lookup k cl with Some l => l | None => [] end) [s])
  else cm_lookup k cl.
Proof.
  induction cl as [|[k' l] r IH]; simpl.
  - destruct (String.eqb cid k); reflexivity.
  - destruct (String.eqb k' cid) eqn:E1; simpl.
    + apply String.eqb_eq in E1. subst k'.
      destruct (String.eqb cid k); reflexivity.
    + destruct (String.eqb k' k) eqn:E2; [|exact IH].
      apply String.eqb_eq in E2. subst k'.
      destruct (String.eqb cid k) eqn:E3; [|reflexivity].
      apply String.eqb_eq in E3. subst cid. rewrite String.eqb_refl in E1. discriminate.
Qed.

Lemma cm_lookup_map k (f : list scene -> list scene) (cl : cluster_map) :
  cm_lookup k (List.map (fun kl => (fst kl, f (snd kl))) cl) = option_map f (cm_lookup k cl).
Proof.
  induction cl as [|[k' l] r IH]; simpl; [reflexivity|].
  destruct (String.eqb k' k); [reflexivity|exact IH].
Qed.



(** The key of the [i]-th noise scene (counted from 0). *)
Lemma single_key_eq label nc i :
  String.eqb (fst (cluster_key label nc)) ("single_" ++ pretty (Z.of_nat (S i))) =
  ((label =? -1)%Z && Nat.eqb nc i).
Proof.
  unfold cluster_key.
  destruct (label =? -1)%Z eqn:Hn; cbn [fst andb].
  - apply Bool.eq_iff_eq_true. rewrite String.eqb_eq, Nat.eqb_eq. split.
    + intros H. apply (inj (String.app "single_")) in H. apply (inj pretty) in H. lia.
    + intros ->. reflexivity.
  - apply String.eqb_neq. discriminate.
Qed.

Lemma organize_noise pairs (cl : cluster_map) nc i :
  (forall j, nc <= j -> cm_lookup ("single_" ++ pretty (Z.of_nat (S j))) cl = None) ->
  cm_lookup ("single_" ++ pretty (Z.of_nat (S i))) (organize pairs cl nc) =
  if Nat.ltb i nc then cm_lookup ("single_" ++ pretty (Z.of_nat (S i))) cl
  else option_map (fun s => [s])
         (nth_error (List.map fst (List.filter (fun p => (snd p =? -1)%Z) pairs)) (i - nc)).
Proof.
  revert cl nc. induction pairs as [|[s label] r IH]; intros cl nc Hfresh; simpl.
  - destruct (Nat.ltb i nc) eqn:Hi; [reflexivity|].
    apply Nat.ltb_ge in Hi. rewrite (Hfresh i Hi). destruct (i - nc); reflexivity.
  - pose proof (single_key_eq label nc) as Hk.
    destruct (cluster_key label nc) as [cid nc'] eqn:Hck. simpl in Hk.
    assert (Hnc' : nc' = if (label =? -1)%Z then S nc else nc).
    { unfold cluster_key in Hck. destruct (label =? -1)%Z; injection Hck as _ <-; reflexivity. }
    rewrite IH.
    + rewrite cm_lookup_cluster_add, Hk.
      destruct (label =? -1)%Z eqn:Hl; simpl; subst nc'.
      * destruct (Nat.ltb i (S nc)) eqn:H1, (Nat.ltb i nc) eqn:H2, (Nat.eqb nc i) eqn:H3;
          apply Nat.ltb_lt in H1 || apply Nat.ltb_ge in H1;
          apply Nat.ltb_lt in H2 || apply Nat.ltb_ge in H2;
          apply Nat.eqb_eq in H3 || apply Nat.eqb_neq in H3; try lia; try reflexivity.
        -- subst i. rewrite Hfresh by lia. rewrite Nat.sub_diag. reflexivity.
        -- replace (i - nc) with (S (i - S nc)) by lia. reflexivity.
      * reflexivity.
    + intros j Hj. rewrite cm_lookup_cluster_add, Hk.
      destruct (label =? -1)%Z; simpl; subst nc'.
      * destruct (Nat.eqb nc j) eqn:E; [apply Nat.eqb_eq in E; lia|]. apply Hfresh. lia.
      * apply Hfresh, Hj.
Qed.

(** X1: [sorted(clusters.items(), key=len, reverse=True)] is stable:
    clusters of equal size keep their order in the dict. *)
Theorem sort_clusters_stable (cs : cluster_map) n :
  List.filter (fun c => Nat.eqb (length (snd c)) n) (sort_clusters cs) =
  List.filter (fun c => Nat.eqb (length (snd c)) n) cs.
Proof.
  apply sort_by_filter. intros x y Hx Hy.
  apply Nat.eqb_eq in Hx, Hy. apply Nat.leb_le. lia.
Qed.




(** X4: every scene DBSCAN labels as noise ([-1]) gets a cluster of its
    own: the key [single_{i+1}] holds exactly the [i]-th noise scene
    (in input order), and is absent past the last one. *)
Theorem cluster_scenes_noise_singletons (dbscan : Q -> Z -> string -> list (Q * Q) -> list Z)
        (scenes : list scene) eps_factor min_samples (i : nat) :
  let labels := dbscan (eps_factor * spec_avg_scene_size scenes)%Q min_samples "euclidean"
                  (List.map centroid scenes) in
  cm_lookup ("single_" ++ pretty (Z.of_nat (S i))) (cluster_scenes dbscan scenes eps_factor min_samples) =
  option_map (fun s => [s])
    (nth_error (List.map fst (List.filter (fun p => (snd p =? -1)%Z) (combine scenes labels))) i).
Proof.
  intros labels. destruct scenes as [|s r]; [destruct i; reflexivity|].
  unfold cluster_scenes, labels, spec_avg_scene_size. cbv zeta.
  rewrite cm_lookup_map, organize_noise by (intros j _; reflexivity).
  rewrite Nat.sub_0_r. simpl Nat.ltb. cbv iota.
  destruct (nth_error _ i); reflexivity.
Qed.

(** ** The statistics and rows of the two selection loops *)

Lemma flood_decision_cases cloud_max min_water_pct c w :
  flood_decision cloud_max min_water_pct c w = (true, "low_cloud") \/
  flood_decision cloud_max min_water_pct c w = (true, "high_cloud_water") \/
  flood_decision cloud_max min_water_pct c w = (false, "high_cloud_no_water").
Proof.
  unfold flood_decision. destruct (py_le c cloud_max), (py_ge (PyFloat w) min_water_pct); auto.
Qed.

Lemma filter_none {A : Type} (p : A -> bool) l :
  (forall x, In x l -> p x = false) -> List.filter p l = [].
Proof.
  induction l as [|x r IH]; intros H; simpl; [reflexivity|].
  rewrite (H x (or_introl eq_refl)). apply IH. intros y Hy. apply H. right. exact Hy.
Qed.

Lemma write_accepted_rows F input_dir data props base cc wi reason rows rows' :
  write_accepted F input_dir data props base cc wi reason rows = inr rows' ->
  exists extra, rows' = app rows extra /\ (length extra <= 1)%nat /\
    forall r, In r extra -> row_cloud_cov r = cc /\ row_water_pct r = water_pct wi /\
                            row_selection r = reason /\ row_tif_file r = row_scene_id r ++ tif_suffix.
Proof.
  unfold write_accepted.
  destruct (stac_ring F _ data) as [e|[ring|]]; intros H; [discriminate| |];
    injection H as <-.
  - eexists. split; [reflexivity|]. split; [simpl; lia|].
    intros r [<-|[]]. simpl. repeat split.
  - exists []. split; [rewrite app_nil_r; reflexivity|]. split; [simpl; lia|]. intros _ [].
Qed.

Section FloodStats.
Variables (F : fs) (input_dir : string) (cloud_max : pynum) (nir_threshold : Z) (min_water_pct : pynum).

Lemma flood_step_stats f st st' :
  flood_step F input_dir cloud_max nir_threshold min_water_pct f st = (st', None) ->
  stats_consistent (st_stats st) ->
  stats_consistent (st_stats st') /\ total_scenes (st_stats st') = S (total_scenes (st_stats st)) /\
  length (List.filter is_status (st_out st')) = S (length (List.filter is_status (st_out st))).
Proof.
  unfold flood_step.
  destruct (fs_json F (path_join input_dir f)) as [data|]; [|discriminate].
  destruct data as [| | | | | |dkv]; try discriminate.
  destruct (obj_get dkv "properties" (JObj dkv)) as [| | | | | |pkv]; try discriminate.
  destruct (py_mul100 (obj_get pkv "cloud_cover" (JFloat 1))) as [e|cc]; [discriminate|].
  destruct (detect_water_extent F (path_join input_dir (scene_base f ++ tif_suffix))
              (path_join input_dir (scene_base f ++ udm2_suffix)) nir_threshold)
    as [evs wi] eqn:Hd.
  destruct cc as [cc|]; [|discriminate].
  assert (Hev : List.filter is_status evs = []).
  { apply filter_none. intros ev Hin.
    apply (detect_events_not_status F (path_join input_dir (scene_base f ++ tif_suffix))
             (path_join input_dir (scene_base f ++ udm2_suffix)) nir_threshold).
    rewrite Hd. exact Hin. }
  unfold stats_consistent.
  destruct (flood_decision_cases cloud_max min_water_pct cc (water_pct wi)) as [E|[E|E]];
    rewrite E;
    [destruct (write_accepted _ _ _ _ _ _ _ _ _)|destruct (write_accepted _ _ _ _ _ _ _ _ _)|];
    intros H; try discriminate; injection H as <-; cbn [st_stats st_out];
    rewrite !List.filter_app, Hev; simpl; intros [H1 [H2 H3]]; rewrite !length_app; simpl; lia.
Qed.

Lemma flood_loop_stats files st st' :
  flood_loop F input_dir cloud_max nir_threshold min_water_pct files st = (st', None) ->
  stats_consistent (st_stats st) ->
  stats_consistent (st_stats st') /\
  total_scenes (st_stats st') = (total_scenes (st_stats st) + length files)%nat /\
  length (List.filter is_status (st_out st')) = (length (List.filter is_status (st_out st)) + length files)%nat.
Proof.
  revert st. induction files as [|f r IH]; intros st; simpl.
  - intros H Hs. injection H as <-. rewrite !Nat.add_0_r. tauto.
  - destruct (flood_step F input_dir cloud_max nir_threshold min_water_pct f st) as [st1 [e|]] eqn:Hs;
      [discriminate|].
    intros Hl Hc. destruct (flood_step_stats f st st1 Hs Hc) as [Hc1 [Ht1 Ho1]].
    destruct (IH st1 Hl Hc1) as [Hc2 [Ht2 Ho2]].
    split; [exact Hc2|]. split; lia.
Qed.

Lemma flood_step_rows f st :
  rows_inv cloud_max min_water_pct st -> rows_inv cloud_max min_water_pct (fst (flood_step F input_dir cloud_max nir_threshold min_water_pct f st)).
Proof.
  unfold flood_step, rows_inv. intros [Hf Hl].
  destruct (fs_json F (path_join input_dir f)) as [data|]; [|exact (conj Hf Hl)].
  destruct data as [| | | | | |dkv]; try exact (conj Hf Hl).
  destruct (obj_get dkv "properties" (JObj dkv)) as [| | | | | |pkv]; try exact (conj Hf Hl).
  destruct (py_mul100 (obj_get pkv "cloud_cover" (JFloat 1))) as [e|cc]; [simpl; tauto|].
  destruct (detect_water_extent F (path_join input_dir (scene_base f ++ tif_suffix))
              (path_join input_dir (scene_base f ++ udm2_suffix)) nir_threshold) as [evs wi].
  destruct cc as [cc|]; [|simpl; tauto].
  destruct (flood_decision cloud_max min_water_pct cc (water_pct wi)) as [selected reason] eqn:E.
  destruct selected; [|simpl; split; [exact Hf|lia]].
  cbn [st_rows st_stats st_out].
  destruct (write_accepted F input_dir dkv pkv (scene_base f) cc wi reason (st_rows st))
    as [e|rows'] eqn:Hw; simpl; [split; [exact Hf|lia]|].
  destruct (write_accepted_rows _ _ _ _ _ _ _ _ _ _ Hw) as [extra [-> [Hle Hx]]].
  split.
  - apply Forall_app. split; [exact Hf|]. apply List.Forall_forall.
    intros r Hr. destruct (Hx r Hr) as [Hc [Hw' [Hs Ht]]].
    unfold flood_row_ok. rewrite Hc, Hw', Hs. split; [symmetry; exact E|exact Ht].
  - rewrite length_app. lia.
Qed.

Lemma flood_loop_rows files st :
  rows_inv cloud_max min_water_pct st -> rows_inv cloud_max min_water_pct (fst (flood_loop F input_dir cloud_max nir_threshold min_water_pct files st)).
Proof.
  revert st. induction files as [|f r IH]; intros st Hinv; simpl; [exact Hinv|].
  pose proof (flood_step_rows f st Hinv) as H1.
  destruct (flood_step F input_dir cloud_max nir_threshold min_water_pct f st) as [st1 [e|]];
    [exact H1|apply IH, H1].
Qed.
End FloodStats.

(** X8: a run of [select_scenes_flood_aware] that completes counts every
    metadata file once, and its statistics add up: [total_scenes] is the
    number of [*_metadata.json] files and of printed status lines,
    [total_scenes = accepted + rejected],
    [accepted = low_cloud_accept + high_cloud_water_accept] and
    [rejected = high_cloud_no_water_reject]. *)
Theorem select_scenes_flood_aware_stats F input_dir cloud_max nir_threshold min_water_pct :
  snd (select_scenes_flood_aware F input_dir cloud_max nir_threshold min_water_pct) = None ->
  let st := fst (select_scenes_flood_aware F input_dir cloud_max nir_threshold min_water_pct) in
  total_scenes (st_stats st) = length (metadata_files F) /\
  length (List.filter is_status (st_out st)) = total_scenes (st_stats st) /\
  total_scenes (st_stats st) = (accepted (st_stats st) + rejected (st_stats st))%nat /\
  accepted (st_stats st) = (low_cloud_accept (st_stats st) + high_cloud_water_accept (st_stats st))%nat /\
  rejected (st_stats st) = high_cloud_no_water_reject (st_stats st).
Proof.
  unfold select_scenes_flood_aware.
  destruct (flood_loop F input_dir cloud_max nir_threshold min_water_pct (metadata_files F) sel_state0)
    as [st e] eqn:Hl.
  simpl. intros ->.
  destruct (flood_loop_stats F input_dir cloud_max nir_threshold min_water_pct _ _ _ Hl)
    as [[H1 [H2 H3]] [Ht Ho]].
  { unfold stats_consistent. simpl. repeat split. }
  simpl in Ht, Ho. cbv zeta. simpl fst. repeat split; lia.
Qed.

Lemma select_scenes_flood_aware_stats_witness :
  snd (select_scenes_flood_aware demo_fs demo_dir (PyInt 80) 1000 (PyFloat 1)) = None /\
  total_scenes (st_stats (fst (select_scenes_flood_aware demo_fs demo_dir (PyInt 80) 1000 (PyFloat 1)))) =
    length (metadata_files demo_fs).
Proof.
  assert (H : snd (select_scenes_flood_aware demo_fs demo_dir (PyInt 80) 1000 (PyFloat 1)) = None)
    by (vm_compute; reflexivity).
  split; [exact H|].
  exact (proj1 (select_scenes_flood_aware_stats demo_fs demo_dir (PyInt 80) 1000 (PyFloat 1) H)).
Defined.

(** X9: every row [select_scenes_flood_aware] passes to [w.record] is an
    accepted scene: its [selection] is [low_cloud] with
    [cloud_cov <= cloud_max] true, or [high_cloud_water] with
    [cloud_cov <= cloud_max] false (without NaN: [cloud_cov > cloud_max])
    and [water_pct >= min_water_pct]; its [tif_file] is its [scene_id]
    followed by the TIFF suffix; and there are at most [accepted] rows.
    These are the values before pyshp rounds the numeric fields to two
    decimals in the file. *)
Theorem select_scenes_flood_aware_rows F input_dir cloud_max nir_threshold min_water_pct :
  let st := fst (select_scenes_flood_aware F input_dir cloud_max nir_threshold min_water_pct) in
  (length (st_rows st) <= accepted (st_stats st))%nat /\
  forall r, In r (st_rows st) ->
    row_tif_file r = row_scene_id r ++ tif_suffix /\
    ((row_selection r = "low_cloud" /\ py_le (row_cloud_cov r) cloud_max = true) \/
     (row_selection r = "high_cloud_water" /\ py_le (row_cloud_cov r) cloud_max = false /\
      (py_isnan (row_cloud_cov r) = false -> py_isnan cloud_max = false ->
       py_gt (row_cloud_cov r) cloud_max = true) /\
      py_ge (PyFloat (row_water_pct r)) min_water_pct = true)).
Proof.
  intros st.
  assert (Hinv : rows_inv cloud_max min_water_pct st).
  { apply flood_loop_rows. split; [constructor|simpl; lia]. }
  destruct Hinv as [Hf Hl]. split; [exact Hl|].
  intros r Hr. rewrite List.Forall_forall in Hf. destruct (Hf r Hr) as [Hd Ht].
  split; [exact Ht|].
  unfold flood_decision in Hd.
  destruct (py_le (row_cloud_cov r) cloud_max) eqn:E1.
  - injection Hd as Hs. left. split; [exact Hs|reflexivity].
  - destruct (py_ge (PyFloat (row_water_pct r)) min_water_pct) eqn:E2; [|discriminate].
    injection Hd as Hs. right. split; [exact Hs|]. split; [reflexivity|]. split; [|reflexivity].
    intros Hc Hm. apply py_le_gt; assumption.
Qed.

Section ShpRows.
Variables (F : fs) (input_dir : string) (threshold : float).

Lemma shp_step_inv f st :
  shp_inv F input_dir threshold st -> shp_inv F input_dir threshold (fst (shp_step F input_dir threshold f st)).
Proof.
  intros Hinv. pose proof Hinv as [Hc [Hf Hl]]. unfold shp_step.
  destruct (negb (endswith f "_metadata.json")); [exact Hinv|].
  destruct (fs_json F (path_join input_dir f)) as [data|] eqn:Hj; [|exact Hinv].
  destruct data as [| | | | | |dkv]; try exact Hinv.
  destruct (obj_get dkv "properties" (JObj dkv)) as [| | | | | |pkv] eqn:Hp; try exact Hinv.
  destruct (py_number (obj_get pkv "cloud_cover" (JFloat 1))) as [e|cc] eqn:Hn; [exact Hinv|].
  cbv zeta.
  destruct (py_le cc (PyFloat threshold)) eqn:Hle; simpl negb; cbv iota.
  - destruct (stac_ring F _ dkv) as [e|[ring|]]; unfold shp_inv; simpl;
      rewrite ?List.filter_app, ?length_app; simpl.
    + split; [exact Hc|split; [exact Hf|lia]].
    + split; [lia|]. split; [|lia].
      apply Forall_app. split; [exact Hf|]. constructor; [|constructor].
      exists f, cc. simpl. split; [|repeat split; exact Hle].
      unfold metadata_cloud_cover. rewrite Hj, Hp, Hn. reflexivity.
    + split; [exact Hc|split; [exact Hf|lia]].
  - unfold shp_inv; simpl. rewrite List.filter_app, length_app. simpl.
    split; [exact Hc|split; [exact Hf|lia]].
Qed.

Lemma shp_loop_inv files st :
  shp_inv F input_dir threshold st -> shp_inv F input_dir threshold (fst (shp_loop F input_dir threshold files st)).
Proof.
  revert st. induction files as [|f r IH]; intros st Hinv; simpl; [exact Hinv|].
  pose proof (shp_step_inv f st Hinv) as H1.
  destruct (shp_step F input_dir threshold f st) as [st1 [e|]]; [exact H1|apply IH, H1].
Qed.
End ShpRows.

(** The percentage written is computed from the decimal that passed the
    threshold, in doubles: at [cloud_max = 7] a [cloud_cover] of [0.07]
    passes ([0.07 <= 7 / 100.0]) and is written as a [cloud_cov] above
    [7] ([0.07 * 100 = 7.000000000000001]). *)
Lemma cloud_cov_rounding_example :
  cloud_threshold (PyInt 7) = inr (7 / 100)%float /\
  py_le (PyFloat 0.07) (PyFloat (7 / 100)%float) = true /\
  py_gt (py_num_mul100 (PyFloat 0.07)) (PyInt 7) = true.
Proof. vm_compute. split; [reflexivity|split; reflexivity]. Qed.

(** X10: the [count] returned by [select_scenes_to_shapefile] is the
    number of rows written, there are no more rows than files that passed
    the threshold, and every row comes from a metadata file whose
    [cloud_cover] passed [cloud_cover <= cloud_max / 100.0], has
    [cloud_cov = cloud_cover * 100] (computed in doubles, so possibly
    slightly above [cloud_max]) and a [tif_file] named after its
    [scene_id]. *)
Theorem select_scenes_to_shapefile_rows F input_dir cloud_max :
  let st := fst (select_scenes_to_shapefile F input_dir cloud_max) in
  ts_count st = length (ts_rows st) /\
  (length (ts_rows st) <= length (List.filter snd (ts_tested st)))%nat /\
  forall r, In r (ts_rows st) ->
    exists f c t, cloud_threshold cloud_max = inr t /\ metadata_cloud_cover F input_dir f = Some c /\
      srow_scene_id r = scene_base f /\ srow_cloud_cov r = py_num_mul100 c /\
      py_le c (PyFloat t) = true /\ srow_tif_file r = srow_scene_id r ++ tif_suffix.
Proof.
  intros st. subst st. unfold select_scenes_to_shapefile.
  destruct (cloud_threshold cloud_max) as [e0|t] eqn:Ht0.
  { simpl. split; [reflexivity|]. split; [lia|]. intros r []. }
  assert (Hinv : shp_inv F input_dir t (fst (shp_loop F input_dir t (sorted_names (fs_listdir F)) shp_state0))).
  { apply shp_loop_inv. split; [reflexivity|split; [constructor|simpl; lia]]. }
  destruct Hinv as [Hc [Hf Hl]]. split; [exact Hc|]. split; [exact Hl|].
  rewrite List.Forall_forall in Hf. intros r Hr.
  destruct (Hf r Hr) as [f [c [H1 [H2 [H3 [H4 H5]]]]]].
  exists f, c, t. repeat split; assumption.
Qed.

(** ** The AOI name *)

Lemma str_app_cons a r s : String a r ++ s = String a (r ++ s).
Proof. reflexivity. Qed.

Lemma str_app_nil_r s : s ++ "" = s.
Proof. induction s as [|a r IH]; [reflexivity|]. rewrite str_app_cons, IH. reflexivity. Qed.

Lemma str_app_assoc s1 s2 s3 : s1 ++ (s2 ++ s3) = (s1 ++ s2) ++ s3.
Proof. induction s1 as [|a r IH]; [reflexivity|]. rewrite !str_app_cons, IH. reflexivity. Qed.

Lemma basename_go_app s1 s2 acc :
  basename_go (s1 ++ s2) acc = basename_go s2 (basename_go s1 acc).
Proof.
  revert acc. induction s1 as [|a r IH]; intros acc; simpl; [reflexivity|].
  destruct (Ascii.eqb a "/"%char); apply IH.
Qed.

Lemma basename_go_noslash s acc :
  no_char "/"%char s = true -> basename_go s acc = acc ++ s.
Proof.
  revert acc. induction s as [|a r IH]; intros acc; simpl.
  - rewrite str_app_nil_r. reflexivity.
  - intros H. apply andb_prop in H as [Ha Hr].
    destruct (Ascii.eqb a "/"%char); [discriminate|].
    rewrite IH by exact Hr. rewrite <- str_app_assoc. reflexivity.
Qed.

Lemma no_char_app c s1 s2 : no_char c (s1 ++ s2) = no_char c s1 && no_char c s2.
Proof. induction s1 as [|a r IH]; simpl; [reflexivity|]. rewrite IH, andb_assoc. reflexivity. Qed.

Lemma rfind_go_app c s1 s2 i f :
  rfind_go c (s1 ++ s2) i f = rfind_go c s2 (i + String.length s1) (rfind_go c s1 i f).
Proof.
  revert i f. induction s1 as [|a r IH]; intros i f; simpl; [rewrite Nat.add_0_r; reflexivity|].
  rewrite IH. f_equal. lia.
Qed.

Lemma rfind_go_none c s i f : no_char c s = true -> rfind_go c s i f = f.
Proof.
  revert i f. induction s as [|a r IH]; intros i f; simpl; [reflexivity|].
  intros H. apply andb_prop in H as [Ha Hr]. apply negb_true_iff in Ha. rewrite Ha. apply IH, Hr.
Qed.

Lemma substring_app_l s1 s2 : String.substring 0 (String.length s1) (s1 ++ s2) = s1.
Proof. induction s1 as [|a r IH]; simpl; [destruct s2; reflexivity|]. rewrite IH. reflexivity. Qed.

Lemma substring_all s : String.substring 0 (String.length s) s = s.
Proof. induction s as [|a r IH]; [reflexivity|]. simpl. f_equal. exact IH. Qed.

Lemma substring_app_r s1 s2 :
  String.substring (String.length s1) (String.length (s1 ++ s2) - String.length s1) (s1 ++ s2) = s2.
Proof.
  induction s1 as [|a r IH].
  - change (String.substring 0 (String.length s2 - 0) s2 = s2).
    rewrite Nat.sub_0_r. apply substring_all.
  - rewrite str_app_cons. simpl. exact IH.
Qed.

(** X11: [main] names the AOI after the GeoJSON file: for a file
    [name.ext] (possibly under a directory) whose [name] has no slash and
    some character other than a dot, and whose [ext] has no dot or slash,
    [aoi_name] is [name]. *)
Theorem aoi_name_of_geojson dir name ext :
  no_char "/"%char name = true -> no_char "/"%char ext = true -> no_char "."%char ext = true ->
  existsb (fun a => negb (Ascii.eqb a "."%char)) (list_ascii_of_string name) = true ->
  aoi_name_of (name ++ "." ++ ext) = name /\ aoi_name_of (dir ++ "/" ++ name ++ "." ++ ext) = name.
Proof.
  intros Hn He Hd Hx.
  assert (Hp : no_char "/"%char (name ++ "." ++ ext) = true).
  { rewrite no_char_app, Hn. change ("." ++ ext) with (String "." ext). simpl. exact He. }
  assert (Hs : splitext (name ++ "." ++ ext) = (name, "." ++ ext)).
  { unfold splitext, rfind. rewrite (rfind_go_none _ _ _ _ Hp).
    rewrite rfind_go_app. change ("." ++ ext) with (String "." ext). simpl. rewrite (rfind_go_none _ _ _ _ Hd).
    simpl Nat.leb. cbv iota. rewrite Nat.sub_0_r, substring_app_l, Hx. f_equal.
    apply substring_app_r. }
  unfold aoi_name_of, basename. split.
  - rewrite (basename_go_noslash _ _ Hp).
    change ("" ++ (name ++ "." ++ ext)) with (name ++ "." ++ ext). rewrite Hs. reflexivity.
  - rewrite basename_go_app, (basename_go_app "/").
    change (basename_go "/" (basename_go dir "")) with "".
    rewrite (basename_go_noslash _ _ Hp).
    change ("" ++ (name ++ "." ++ ext)) with (name ++ "." ++ ext). rewrite Hs. reflexivity.
Qed.

Lemma aoi_name_of_geojson_witness :
  aoi_name_of ("sumbar1" ++ "." ++ "geojson") = "sumbar1" /\
  aoi_name_of ("PSScene/aoi" ++ "/" ++ "sumbar1" ++ "." ++ "geojson") = "sumbar1".
Proof.
  apply aoi_name_of_geojson; reflexivity.
Defined.

(** ** Reading the boundary *)

Lemma feature_shapes_ok {Geom : Type} (shape : json -> sum exn Geom) features gs :
  Forall2 (fun feature g => exists fkv geometry, feature = JObj fkv /\
             assoc_get fkv "geometry" = Some geometry /\ shape geometry = inr g) features gs ->
  feature_shapes shape features = inr gs.
Proof.
  induction 1 as [|f g fs gs' [fkv [geo [-> [Hg Hs]]]] _ IH]; [reflexivity|].
  simpl. rewrite Hg, Hs, IH. reflexivity.
Qed.

(** X12: for a GeoJSON FeatureCollection whose features all carry a
    geometry that [shape] accepts, [read_geojson_boundary] returns the
    shape of the single feature, or otherwise the [unary_union] of the
    feature shapes in file order (also for an empty collection). *)
Theorem read_geojson_boundary_collection {Geom : Type} (shape : json -> sum exn Geom)
        (unary_union : list Geom -> Geom) F path kv features gs :
  fs_json F path = Some (JObj kv) ->
  assoc_get kv "type" = Some (JStr "FeatureCollection") ->
  assoc_get kv "features" = Some (JArr features) ->
  Forall2 (fun feature g => exists fkv geometry, feature = JObj fkv /\
             assoc_get fkv "geometry" = Some geometry /\ shape geometry = inr g) features gs ->
  read_geojson_boundary shape unary_union F path =
    inr (match gs with [g] => g | _ => unary_union gs end).
Proof.
  intros Hf Ht Hfe Hgs. unfold read_geojson_boundary. rewrite Hf.
  unfold boundary_of_json, py_index. rewrite Ht. cbv [json_is_str].
  rewrite String.eqb_refl. rewrite Hfe. cbv [py_iter].
  rewrite (feature_shapes_ok shape features gs Hgs).
  destruct gs as [|g [|g' r]]; reflexivity.
Qed.

Lemma read_geojson_boundary_collection_witness :
  read_geojson_boundary demo_shape demo_union demo_mosaic_fs "aoi/sumbar1.geojson" =
    inr (demo_union [5%Q; 3%Q]).
Proof.
  apply (read_geojson_boundary_collection demo_shape demo_union demo_mosaic_fs "aoi/sumbar1.geojson"
           [("type", JStr "FeatureCollection");
            ("features", JArr [JObj [("geometry", JInt 5)]; JObj [("geometry", JInt 3)]])]
           [JObj [("geometry", JInt 5)]; JObj [("geometry", JInt 3)]] [5%Q; 3%Q]);
    [reflexivity|reflexivity|reflexivity|].
  constructor; [exists [("geometry", JInt 5)], (JInt 5); repeat split|].
  constructor; [exists [("geometry", JInt 3)], (JInt 3); repeat split|].
  constructor.
Defined.

(** ** [main] *)

Lemma summary_line_ok format_0f format_1f cid (l : list scene) :
  l <> [] -> exists s, summary_line format_0f format_1f (cid, l) = inr s.
Proof.
  destruct l as [|x r]; [intros H; contradiction H; reflexivity|intros _].
  eexists. reflexivity.
Qed.

Lemma summary_lines_ok format_0f format_1f (cs : cluster_map) :
  (forall c, In c cs -> snd c <> []) ->
  exists ss, summary_lines format_0f format_1f cs = inr ss /\ length ss = length cs.
Proof.
  induction cs as [|[cid l] r IH]; intros Hne; [exists []; split; reflexivity|].
  destruct (summary_line_ok format_0f format_1f cid l) as [s Hs]; [apply (Hne (cid, l)); left; reflexivity|].
  destruct IH as [ss [Hss Hl]]; [intros c Hc; apply Hne; right; exact Hc|].
  exists (s :: ss). cbn [summary_lines]. rewrite Hs, Hss. split; [reflexivity|simpl; rewrite Hl; reflexivity].
Qed.

Section MainTheorems.
Context {Geom : Type} (shape : json -> sum exn Geom) (unary_union : list Geom -> Geom)
        (intersects : list (Q * Q) -> Geom -> bool)
        (dbscan : Q -> Z -> string -> list (Q * Q) -> list Z)
        (dbscan_check : Q -> Z -> option exn)
        (format_0f format_1f : Q -> string)
        (isdir : string -> bool)
        (read_shapefile_scenes : string -> sum exn (list scene))
        (write_text : string -> string -> option exn) (chmod : string -> option exn).
Variables (F : fs) (args : mosaic_args).

(** X13: when the inputs exist and are read, but no scene footprint
    intersects the boundary, [main] exits with the error message and
    writes no script. *)
Theorem mosaic_main_no_intersection boundary all_scenes :
  fs_exists F (arg_shapefile args) = true ->
  fs_exists F (arg_geojson args) = true ->
  isdir (arg_data_dir args) = true ->
  read_geojson_boundary shape unary_union F (arg_geojson args) = inr boundary ->
  read_shapefile_scenes (arg_shapefile args) = inr all_scenes ->
  (forall s, In s all_scenes -> intersects (polygon s) boundary = false) ->
  mosaic_main shape unary_union intersects dbscan dbscan_check format_0f format_1f isdir
    read_shapefile_scenes write_text chmod F args =
    MainExit [nl ++ "ERROR: No scenes intersect with the boundary!"; "Check that:";
              "  1. GeoJSON and shapefile use the same coordinate system";
              "  2. The boundary overlaps with the scene footprints"].
Proof.
  intros Hs Hg Hd Hb Ha Hno. unfold mosaic_main. rewrite Hs, Hg, Hd. simpl negb. cbv iota.
  rewrite Hb, Ha. unfold filter_scenes_by_boundary. rewrite filter_scenes_go_app.
  rewrite filter_none by exact Hno. reflexivity.
Qed.

(** X14: when the inputs exist and are read and some scene intersects
    the boundary, [main] raises what DBSCAN's parameter validation
    raises; past it, [main] prints one summary line per cluster and
    writes the script [generate_mosaic_script] builds, makes it
    executable and reports the filtered, total and cluster counts,
    unless the write or the [chmod] raises, which propagates. *)
Theorem mosaic_main_completes boundary all_scenes :
  fs_exists F (arg_shapefile args) = true ->
  fs_exists F (arg_geojson args) = true ->
  isdir (arg_data_dir args) = true ->
  read_geojson_boundary shape unary_union F (arg_geojson args) = inr boundary ->
  read_shapefile_scenes (arg_shapefile args) = inr all_scenes ->
  filter_scenes_by_boundary intersects all_scenes boundary <> [] ->
  let filtered := filter_scenes_by_boundary intersects all_scenes boundary in
  let clusters := cluster_scenes dbscan filtered (arg_eps_factor args) (arg_min_samples args) in
  let main := mosaic_main shape unary_union intersects dbscan dbscan_check format_0f format_1f isdir
                read_shapefile_scenes write_text chmod F args in
  (forall e, dbscan_check (cluster_eps filtered (arg_eps_factor args)) (arg_min_samples args) = Some e ->
     main = MainRaise None e) /\
  (dbscan_check (cluster_eps filtered (arg_eps_factor args)) (arg_min_samples args) = None ->
   exists summary lines,
     length summary = length clusters /\
     mosaic_script_lines format_0f clusters (arg_data_dir args) (aoi_name_of (arg_geojson args))
       (arg_otb_path args) = inr lines /\
     main =
       match write_text (arg_output_script args) (join_lines lines) with
       | Some e => MainRaise None e
       | None =>
           match chmod (arg_output_script args) with
           | Some e => MainRaise (Some (arg_output_script args, join_lines lines)) e
           | None => MainDone summary (arg_output_script args) (join_lines lines) (length filtered)
                       (length all_scenes) (length clusters)
           end
       end).
Proof.
  intros Hs Hg Hd Hb Ha Hne filtered clusters main.
  assert (Hmain : main =
    match dbscan_check (cluster_eps filtered (arg_eps_factor args)) (arg_min_samples args) with
    | Some e => MainRaise None e
    | None =>
        match summary_lines format_0f format_1f (sort_clusters clusters) with
        | inl e => MainRaise None e
        | inr summary =>
            match generate_mosaic_script format_0f write_text chmod clusters (arg_data_dir args)
                    (arg_output_script args) (aoi_name_of (arg_geojson args)) (arg_otb_path args) with
            | WRaise w e => MainRaise w e
            | WDone path text _ =>
                MainDone summary path text (length filtered) (length all_scenes) (length clusters)
            end
        end
    end).
  { subst main. unfold mosaic_main. rewrite Hs, Hg, Hd. simpl negb. cbv iota.
    rewrite Hb, Ha. cbv zeta. subst filtered clusters.
    destruct (filter_scenes_by_boundary intersects all_scenes boundary) as [|f0 fr];
      [contradiction|reflexivity]. }
  split.
  - intros e He. rewrite Hmain, He. reflexivity.
  - intros Hn.
    assert (Hc : forall c, In c clusters -> snd c <> []).
    { intros c Hin. apply (cluster_scenes_clusters dbscan filtered _ _ c Hin). }
    destruct (summary_lines_ok format_0f format_1f (sort_clusters clusters)) as [summary [Hsum Hlen]].
    { intros c Hin. apply Hc. apply (Permutation_in _ (sort_by_perm _ clusters) Hin). }
    destruct (mosaic_script_structure format_0f clusters (arg_data_dir args) (aoi_name_of (arg_geojson args))
                (arg_otb_path args) Hc) as [lines [Hl _]].
    exists summary, lines. split; [|split; [exact Hl|]].
    + rewrite Hlen. apply Permutation_length, sort_by_perm.
    + rewrite Hmain, Hn, Hsum. unfold generate_mosaic_script. rewrite Hl.
      destruct (write_text _ _); [reflexivity|]. destruct (chmod _); reflexivity.
Qed.
End MainTheorems.

Lemma mosaic_main_no_intersection_witness :
  mosaic_main demo_shape demo_union demo_intersects demo_dbscan (fun _ _ => None) demo_format demo_format
    (fun _ => true) (fun _ => inr [mk_scene "s9" 10 7]) (fun _ _ => None) (fun _ => None)
    demo_mosaic_fs demo_args =
  MainExit [nl ++ "ERROR: No scenes intersect with the boundary!"; "Check that:";
            "  1. GeoJSON and shapefile use the same coordinate system";
            "  2. The boundary overlaps with the scene footprints"].
Proof.
  apply (mosaic_main_no_intersection demo_shape demo_union demo_intersects demo_dbscan (fun _ _ => None)
           demo_format demo_format (fun _ => true) (fun _ => inr [mk_scene "s9" 10 7])
           (fun _ _ => None) (fun _ => None) demo_mosaic_fs demo_args
           5%Q [mk_scene "s9" 10 7]); try reflexivity.
  intros s [<-|[]]. vm_compute. reflexivity.
Defined.

Lemma mosaic_main_completes_witness :
  exists summary lines,
    length summary = 1%nat /\
    mosaic_script_lines demo_format
      (cluster_scenes demo_dbscan (filter_scenes_by_boundary demo_intersects demo_scenes 5%Q) (3 # 2) 2)
      "data" "sumbar1" None = inr lines /\
    mosaic_main demo_shape demo_union demo_intersects demo_dbscan (fun _ _ => None) demo_format demo_format
      (fun _ => true) (fun _ => inr demo_scenes) (fun _ _ => None) (fun _ => None) demo_mosaic_fs demo_args =
      MainDone summary "mosaic.sh" (join_lines lines) 3 4 1.
Proof.
  assert (Hne : filter_scenes_by_boundary demo_intersects demo_scenes 5%Q <> []).
  { vm_compute. discriminate. }
  pose proof (mosaic_main_completes demo_shape demo_union demo_intersects demo_dbscan (fun _ _ => None)
           demo_format demo_format (fun _ => true) (fun _ => inr demo_scenes) (fun _ _ => None)
           (fun _ => None) demo_mosaic_fs demo_args
           5%Q demo_scenes eq_refl eq_refl eq_refl eq_refl eq_refl Hne) as H.
  cbv zeta in H. destruct H as [_ H]. destruct (H eq_refl) as [summary [lines [H1 [H2 H3]]]].
  exists summary, lines. split; [rewrite H1; reflexivity|]. split; [exact H2|].
  rewrite H3. reflexivity.
Defined.
